(** * Kasa smart plug monitor: the outage tracker of [main.py]

    A shallow embedding of [KasaMonitor] (main.py): the two fields the
    monitoring loop mutates, the helpers the loop calls, and the body of the
    [while True] loop with its three [try]/[except] layers.

    Conventions.
    - A [datetime] is its count of microseconds (the resolution of
      [datetime.now()]); the difference of two of them is a [timedelta],
      again a count of microseconds, and [total_seconds()] divides it by
      10^6.  The division is carried out in [Q]: the floats of the program
      are read as the exact quotients they approximate.
    - Everything the loop learns from outside in one iteration (the answer of
      the plug, the clock, the fate of the two stages of the SMTP exchange)
      is a [World].  The
      loop is run on the list of the worlds it meets; a list that is used up
      leaves the loop [Running].
    - What the loop does to the outside (log records, calls of the two
      notification functions, mails handed to the server, sleeps) is
      collected in a list of [Action].  A log record keeps the fixed part of
      its message.
    - The notifications of the spec are the calls of the two mail functions:
      [AlertTriggered] is a call of [send_email_alert], [RecoveryTriggered] a
      call of [send_recovery_email]. *)

From Stdlib Require Import ZArith QArith String List Bool Lia.
Import ListNotations.

Local Open Scope Z_scope.
Local Open Scope string_scope.
Local Open Scope list_scope.

(** ** Exceptions *)

(** The three classes the handlers of the program tell apart:
    [except Exception], [except KeyboardInterrupt], and whatever is neither
    (SystemExit, asyncio's CancelledError, ...). *)
Inductive exn : Type :=
| Exception (msg : string)
| KeyboardInterrupt
| BaseException (msg : string).

Inductive result (A : Type) : Type :=
| Return (a : A)
| Raise (e : exn).
Arguments Return {A} a.
Arguments Raise {A} e.

(** ** The monitor object and its configuration *)

(** [self.off_since] and [self.alert_sent] (main.py 40-41). *)
Record KasaMonitor : Type := mkMonitor {
  off_since : option Z;
  alert_sent : bool
}.

(** The state [__init__] builds. *)
Definition init : KasaMonitor := mkMonitor None false.

(** The two entries of [self.config] the loop reads, in seconds. *)
Record Config : Type := mkConfig {
  check_interval : Z;
  alert_threshold : Q
}.

(** [DEFAULT_CONFIG] (main.py 22-33). *)
Definition DEFAULT_CONFIG : Config := mkConfig 60 300.

(** ** What the loop sees and does *)

Record World : Type := mkWorld {
  (** [await self.plug.update()] followed by reading [self.plug.is_on] *)
  plug_update : result bool;
  (** the reading of [datetime.now()], in microseconds *)
  datetime_now : Z;
  (** the first stage of the SMTP exchange of [_send_email], should this
      iteration reach it: connect, starttls, login and [server.sendmail(...)]
      (main.py 135-151); once it returns the message is with the server *)
  smtp_sendmail : result unit;
  (** the second stage: [server.quit()] (main.py 152), reached when the first
      stage returned *)
  smtp_quit : result unit
}.

(** The SMTP exchange as a whole: it completes when both stages do, and it
    raises what the first stage to fail raises. *)
Definition smtp (w : World) : result unit :=
  match smtp_sendmail w with
  | Return _ => smtp_quit w
  | Raise e => Raise e
  end.

(** The two notifications: the argument each function is called with. *)
Inductive Event : Type :=
| AlertTriggered (minutes_off : Q)
| RecoveryTriggered (total_downtime_minutes : Q).

Inductive Level : Type := INFO | WARNING | ERROR.

Inductive Action : Type :=
| Log (lvl : Level) (text : string)
(** [send_email_alert] or [send_recovery_email] is called *)
| Notify (e : Event)
(** [server.sendmail(...)] returned: the message is with the mail server *)
| Sendmail (msg : Event)
(** [await asyncio.sleep(secs)] *)
| Sleep (secs : Z).

(** ** Computations: state that survives an exception, output, result *)

Record Run (A : Type) : Type := mkRun {
  self_after : KasaMonitor;
  output : list Action;
  outcome : result A
}.
Arguments mkRun {A} _ _ _.
Arguments self_after {A} _.
Arguments output {A} _.
Arguments outcome {A} _.

Definition M (A : Type) : Type := KasaMonitor -> Run A.

Definition ret {A} (a : A) : M A := fun self => mkRun self [] (Return a).

Definition raise {A} (e : exn) : M A := fun self => mkRun self [] (Raise e).

(** Output accumulates in front of what a continuation adds. *)
Definition after {A} (out : list Action) (r : Run A) : Run A :=
  let '(mkRun self' out' res) := r in mkRun self' (out ++ out') res.

Definition bind {A B} (c : M A) (k : A -> M B) : M B := fun self =>
  let '(mkRun self' out res) := c self in
  match res with
  | Return a => after out (k a self')
  | Raise e => mkRun self' out (Raise e)
  end.

Declare Scope kasa_scope.
Delimit Scope kasa_scope with kasa.
Notation "x <- c ;; k" := (bind c (fun x => k))
  (at level 61, c at next level, right associativity) : kasa_scope.
Notation "c ;; k" := (bind c (fun _ => k))
  (at level 61, right associativity) : kasa_scope.
Local Open Scope kasa_scope.

Definition get : M KasaMonitor := fun self => mkRun self [] (Return self).

Definition set_off_since (v : option Z) : M unit := fun self =>
  mkRun (mkMonitor v (alert_sent self)) [] (Return tt).

Definition set_alert_sent (b : bool) : M unit := fun self =>
  mkRun (mkMonitor (off_since self) b) [] (Return tt).

Definition act (a : Action) : M unit := fun self => mkRun self [a] (Return tt).

Definition log (lvl : Level) (text : string) : M unit := act (Log lvl text).

(** The outcome of an outside call, brought into the computation. *)
Definition perform {A} (r : result A) : M A := fun self => mkRun self [] r.

(** [try: body / except Exception as e: handler]: an [Exception] is handed
    to the handler, with the state and output the body left behind; the other
    two classes pass through. *)
Definition try_except {A} (body : M A) (handler : string -> M A) : M A :=
  fun self =>
    let '(mkRun self' out res) := body self in
    match res with
    | Raise (Exception msg) => after out (handler msg self')
    | _ => mkRun self' out res
    end.

(** ** Time *)

(** [timedelta.total_seconds()]. *)
Definition total_seconds (td : Z) : Q := inject_Z td / 1000000.

(** A number of whole seconds as a [datetime]/[timedelta]. *)
Definition seconds (n : Z) : Z := n * 1000000.

(** ** The methods of [KasaMonitor] *)

Section Monitor.

Variable config : Config.

(** main.py 69-76.  [None] is the sample the spec calls Unknown, [Some true]
    is On, [Some false] is Off. *)
Definition get_plug_state (w : World) : M (option bool) :=
  try_except
    (is_on <- perform (plug_update w) ;;
     ret (Some is_on))
    (fun _ =>
       log ERROR "Error getting plug state" ;;
       ret None).

(** main.py 131-158. *)
Definition _send_email (w : World) (msg : Event) : M bool :=
  try_except
    (perform (smtp_sendmail w) ;;
     act (Sendmail msg) ;;
     perform (smtp_quit w) ;;
     ret true)
    (fun _ =>
       log ERROR "Failed to send email" ;;
       ret false).

(** The part of main.py 81-96 and 107-123 that can fail: the body of the
    mail formats [self.off_since.strftime(...)], an AttributeError when the
    field is [None]. *)
Definition format_body (msg : Event) : M Event :=
  self <- get ;;
  match off_since self with
  | Some _ => ret msg
  | None => raise (Exception "AttributeError")
  end.

(** main.py 78-102. *)
Definition send_email_alert (w : World) (minutes_off : Q) : M bool :=
  act (Notify (AlertTriggered minutes_off)) ;;
  try_except
    (msg <- format_body (AlertTriggered minutes_off) ;;
     _send_email w msg)
    (fun _ =>
       log ERROR "Failed to send email alert" ;;
       ret false).

(** main.py 104-129. *)
Definition send_recovery_email (w : World) (total_downtime_minutes : Q) : M bool :=
  act (Notify (RecoveryTriggered total_downtime_minutes)) ;;
  try_except
    (msg <- format_body (RecoveryTriggered total_downtime_minutes) ;;
     _send_email w msg)
    (fun _ =>
       log ERROR "Failed to send recovery email" ;;
       ret false).

(** The statements inside the [try] of the loop, main.py 169-210.
    [if self.off_since:] tests a [datetime] or [None]; a [datetime] is always
    true, so the test is the match on the option. *)
Definition loop_body (w : World) : M unit :=
  is_on <- get_plug_state w ;;
  match is_on with
  | None => log WARNING "Could not determine plug state"
  | Some true =>
      self <- get ;;
      match off_since self with
      | Some off =>
          let total_downtime := (total_seconds (datetime_now w - off) / 60)%Q in
          (if alert_sent self then
             sent <- send_recovery_email w total_downtime ;;
             if sent : bool then log INFO "Recovery email sent" else ret tt
           else ret tt) ;;
          log INFO "Plug turned back on" ;;
          set_off_since None ;;
          set_alert_sent false
      | None => ret tt
      end
  | Some false =>
      let now := datetime_now w in
      self <- get ;;
      match off_since self with
      | None =>
          set_off_since (Some now) ;;
          log INFO "Plug turned off"
      | Some off =>
          let time_off := total_seconds (now - off) in
          let minutes_off := (time_off / 60)%Q in
          log INFO "Plug has been off" ;;
          if Qle_bool (alert_threshold config) time_off && negb (alert_sent self) then
            sent <- send_email_alert w minutes_off ;;
            if sent : bool then
              set_alert_sent true ;;
              log INFO "Alert email sent"
            else ret tt
          else ret tt
      end
  end ;;
  act (Sleep (check_interval config)).

(** ** The loop *)

Inductive Status : Type :=
| Running                 (* the loop goes round again *)
| Returned                (* [break]: [monitor_loop] returns *)
| Propagated (e : exn).   (* an exception leaves [monitor_loop] *)

Record Loop : Type := mkLoop {
  monitor : KasaMonitor;
  trace : list Action;
  status : Status
}.

(** One pass through [try: ... except KeyboardInterrupt: ... except
    Exception as e: ...] (main.py 168-217) around any statements. *)
Definition guarded (body : M unit) (self : KasaMonitor) : Loop :=
  let '(mkRun self' out res) := body self in
  match res with
  | Return _ => mkLoop self' out Running
  | Raise KeyboardInterrupt =>
      mkLoop self' (out ++ [Log INFO "Monitor stopped by user"]) Returned
  | Raise (Exception _) =>
      mkLoop self'
             (out ++ [Log ERROR "Unexpected error in monitor loop";
                      Sleep (check_interval config)]) Running
  | Raise e => mkLoop self' out (Propagated e)
  end.

Definition iteration (w : World) (self : KasaMonitor) : Loop :=
  guarded (loop_body w) self.

(** [while True:] on the worlds [ws], one per iteration. *)
Fixpoint monitor_loop (ws : list World) (self : KasaMonitor) : Loop :=
  match ws with
  | [] => mkLoop self [] Running
  | w :: ws' =>
      let '(mkLoop self' out st) := iteration w self in
      match st with
      | Running =>
          let '(mkLoop self'' out' st') := monitor_loop ws' self' in
          mkLoop self'' (out ++ out') st'
      | _ => mkLoop self' out st
      end
  end.

End Monitor.

(** ** Reading a trace *)

(** The notifications the loop raised: the calls of [send_email_alert] and
    [send_recovery_email], in order. *)
Fixpoint events (t : list Action) : list Event :=
  match t with
  | [] => []
  | Notify e :: t' => e :: events t'
  | _ :: t' => events t'
  end.

(** The messages handed to the mail server, in order: one for each
    [server.sendmail(...)] that returned, whether or not the [server.quit()]
    after it did and so whatever [_send_email] returned. *)
Fixpoint delivered (t : list Action) : list Event :=
  match t with
  | [] => []
  | Sendmail e :: t' => e :: delivered t'
  | _ :: t' => delivered t'
  end.

Definition is_alert (e : Event) : bool :=
  match e with AlertTriggered _ => true | RecoveryTriggered _ => false end.

Definition is_recovery (e : Event) : bool :=
  match e with AlertTriggered _ => false | RecoveryTriggered _ => true end.

Definition alerts (es : list Event) : list Event := filter is_alert es.

Definition recoveries (es : list Event) : list Event := filter is_recovery es.

(** ** Reading a world *)

(** The three samples of the spec, as [get_plug_state] tells them apart. *)
Definition On (w : World) : Prop := plug_update w = Return true.
Definition Off (w : World) : Prop := plug_update w = Return false.
Definition Unknown (w : World) : Prop :=
  exists msg, plug_update w = Raise (Exception msg).

Definition is_on (w : World) : bool :=
  match plug_update w with Return true => true | _ => false end.

Definition is_off (w : World) : bool :=
  match plug_update w with Return false => true | _ => false end.

(** An outside call that answers or fails with an [Exception]: nothing that
    stops the process. *)
Definition answers {A} (r : result A) : bool :=
  match r with
  | Return _ | Raise (Exception _) => true
  | Raise _ => false
  end.

(** No interrupt reaches the iteration that meets [w]. *)
Definition uninterrupted (w : World) : bool :=
  answers (plug_update w) && answers (smtp w).

(** The mail function of this iteration, if one is called inside an episode,
    returns [True]: the SMTP exchange completes, [quit()] included. *)
Definition smtp_ok (w : World) : bool :=
  match smtp w with Return _ => true | Raise _ => false end.

(** [time_off >= alert_threshold] for the episode begun at [started_at]. *)
Definition over_threshold (config : Config) (started_at : Z) (w : World) : bool :=
  Qle_bool (alert_threshold config) (total_seconds (datetime_now w - started_at)).

(** An Off sample at or past the threshold, in the episode begun at
    [started_at]. *)
Definition due (config : Config) (started_at : Z) (w : World) : bool :=
  is_off w && over_threshold config started_at w.

(** The samples of the episode begun at [started_at] on which the alert is
    due to be raised: the due ones, up to and including the first whose mail
    function returns [True]. *)
Fixpoint dispatches (config : Config) (started_at : Z) (rest : list World)
  : list World :=
  match rest with
  | [] => []
  | w :: rest' =>
      if due config started_at w then
        w :: (if smtp_ok w then [] else dispatches config started_at rest')
      else dispatches config started_at rest'
  end.

(** The alert a due sample raises in the episode begun at [started_at]. *)
Definition alert_of (started_at : Z) (w : World) : Event :=
  AlertTriggered (total_seconds (datetime_now w - started_at) / 60).

(** The alerts the loop took for sent: its records "Alert email sent"
    (main.py 207), written when [send_email_alert] returned [True]. *)
Fixpoint alerts_sent (t : list Action) : nat :=
  match t with
  | [] => 0
  | Log INFO text :: t' =>
      (if String.eqb text "Alert email sent" then 1 else 0) + alerts_sent t'
  | _ :: t' => alerts_sent t'
  end.

(** The property the two fields keep: the alert flag is up only inside an
    episode. *)
Definition invariant (self : KasaMonitor) : Prop :=
  alert_sent self = true -> off_since self <> None.

(** Worlds for the scenarios: a plug that answers, a query that fails, at
    [t] seconds; the mail server works unless said otherwise. *)
Definition on_at (t : Z) : World :=
  mkWorld (Return true) (seconds t) (Return tt) (Return tt).
Definition off_at (t : Z) : World :=
  mkWorld (Return false) (seconds t) (Return tt) (Return tt).
Definition unknown_at (t : Z) : World :=
  mkWorld (Raise (Exception "timeout")) (seconds t) (Return tt) (Return tt).
Definition off_at_smtp_down (t : Z) : World :=
  mkWorld (Return false) (seconds t)
    (Raise (Exception "SMTPServerDisconnected")) (Return tt).
Definition on_at_smtp_down (t : Z) : World :=
  mkWorld (Return true) (seconds t)
    (Raise (Exception "SMTPServerDisconnected")) (Return tt).
(** The message is handed over and [quit()] fails. *)
Definition off_at_quit_fails (t : Z) : World :=
  mkWorld (Return false) (seconds t)
    (Return tt) (Raise (Exception "SMTPServerDisconnected")).

(** Worlds cut short: the query is interrupted from the keyboard, or ends
    in an exception that is no [Exception]. *)
Definition interrupted_at (t : Z) : World :=
  mkWorld (Raise KeyboardInterrupt) (seconds t) (Return tt) (Return tt).
Definition cancelled_at (t : Z) : World :=
  mkWorld (Raise (BaseException "CancelledError")) (seconds t)
    (Return tt) (Return tt).

(** The waits of a trace, in order. *)
Fixpoint sleeps (t : list Action) : list Z :=
  match t with
  | [] => []
  | Sleep secs :: t' => secs :: sleeps t'
  | _ :: t' => sleeps t'
  end.

(** ** Loading the configuration *)

(** [CONFIG_FILE] (main.py 19). *)
Definition CONFIG_FILE : string := "kasa_config.json".

(** What [load_config] can find at a path.  [os.path.exists] is true for the
    first two; [open(path, 'r')] returns the text of the first and raises on
    the second (a directory, a file without read permission);
    [open(path, 'w')] creates the third and raises on the fourth (a missing
    or read-only directory). *)
Inductive Entry : Type :=
| File (text : string)
| Unreadable (e : exn)
| Absent
| Blocked (e : exn).

Definition FileSystem : Type := string -> Entry.

Definition write_file (fs : FileSystem) (path text : string) : FileSystem :=
  fun p => if String.eqb p path then File text else fs p.

Section LoadConfig.

(** What [json.load] returns, with the two functions of the [json] module the
    method calls and the value of the module's default dictionary. *)
Variable J : Type.
Variable json_load : string -> result J.
Variable json_dump : J -> string.
Variable default_config : J.

Record Loaded : Type := mkLoaded {
  files : FileSystem;
  printed : list string;
  loaded : result J
}.

(** main.py 44-55.  Nothing in the method catches an exception: what [open]
    or [json.load] raises is what the method raises. *)
Definition load_config (config_file : string) (fs : FileSystem) : Loaded :=
  match fs config_file with
  | File text => mkLoaded fs [] (json_load text)
  | Unreadable e => mkLoaded fs [] (Raise e)
  | Absent =>
      mkLoaded (write_file fs config_file (json_dump default_config))
        [("Created default config file: " ++ config_file)%string;
         "Please edit the configuration file with your settings."]
        (Return default_config)
  | Blocked e => mkLoaded fs [] (Raise e)
  end.

End LoadConfig.

(** ** One iteration, case by case *)

Ltac unfold_methods :=
  unfold iteration, guarded, loop_body, get_plug_state, send_email_alert,
    send_recovery_email, _send_email, format_body, try_except, bind, after,
    perform, get, ret, raise, log, act, set_off_since, set_alert_sent.

(** Evaluates an iteration once the plug's answer and the fields of the
    monitor are known; the threshold test stays folded. *)
Ltac run_iteration :=
  unfold_methods; cbn -[Qle_bool total_seconds Qdiv].

(** Splits a monitor and a world into every shape they can take. *)
Ltac all_cases self w :=
  destruct self as [[?off|] [|]];
  destruct w as [[[|]|[?msg| |?msg]] ?now
                 [[]|[?msg| |?msg]] [[]|[?msg| |?msg]]];
  unfold smtp in *; cbn [smtp_sendmail smtp_quit] in *.

Section Steps.

Variable config : Config.

Lemma iteration_unknown (w : World) (self : KasaMonitor) (msg : string) :
  plug_update w = Raise (Exception msg) ->
  iteration config w self =
    mkLoop self
      [Log ERROR "Error getting plug state";
       Log WARNING "Could not determine plug state";
       Sleep (check_interval config)] Running.
Proof.
  intros Hq. destruct w as [q now sm qu]. cbn in Hq. subst q.
  destruct self. reflexivity.
Qed.

Lemma iteration_on_idle (w : World) (self : KasaMonitor) :
  plug_update w = Return true -> off_since self = None ->
  iteration config w self = mkLoop self [Sleep (check_interval config)] Running.
Proof.
  intros Hq Hoff. destruct w as [q now sm qu], self as [off sent].
  cbn in Hq, Hoff. subst. reflexivity.
Qed.

Lemma iteration_on_quiet (w : World) (off : Z) :
  plug_update w = Return true ->
  iteration config w (mkMonitor (Some off) false) =
    mkLoop init
      [Log INFO "Plug turned back on"; Sleep (check_interval config)] Running.
Proof.
  intros Hq. destruct w as [q now sm qu]. cbn in Hq. subst. reflexivity.
Qed.

Lemma iteration_off_idle (w : World) (self : KasaMonitor) :
  plug_update w = Return false -> off_since self = None ->
  iteration config w self =
    mkLoop (mkMonitor (Some (datetime_now w)) (alert_sent self))
      [Log INFO "Plug turned off"; Sleep (check_interval config)] Running.
Proof.
  intros Hq Hoff. destruct w as [q now sm qu], self as [off sent].
  cbn in Hq, Hoff. subst. reflexivity.
Qed.

(** An Off sample inside an episode that does not call the notifier: the
    threshold is not reached, or the alert is already out. *)
Lemma iteration_off_silent (w : World) (off : Z) (sent : bool) :
  plug_update w = Return false ->
  over_threshold config off w && negb sent = false ->
  iteration config w (mkMonitor (Some off) sent) =
    mkLoop (mkMonitor (Some off) sent)
      [Log INFO "Plug has been off"; Sleep (check_interval config)] Running.
Proof.
  intros Hq Hth. destruct w as [q now sm qu]. cbn in Hq. subst.
  unfold over_threshold in Hth. cbn [datetime_now] in Hth.
  run_iteration. rewrite Hth. reflexivity.
Qed.

(** An Off sample over the threshold, alert not yet out, mail goes through. *)
Lemma iteration_off_alert_sent (w : World) (off : Z) :
  plug_update w = Return false ->
  over_threshold config off w = true ->
  smtp w = Return tt ->
  let minutes_off := (total_seconds (datetime_now w - off) / 60)%Q in
  iteration config w (mkMonitor (Some off) false) =
    mkLoop (mkMonitor (Some off) true)
      [Log INFO "Plug has been off";
       Notify (AlertTriggered minutes_off);
       Sendmail (AlertTriggered minutes_off);
       Log INFO "Alert email sent";
       Sleep (check_interval config)] Running.
Proof.
  intros Hq Hth Hm. destruct w as [q now [[]|e] qu];
    unfold smtp in Hm; cbn in Hq, Hm; [|discriminate Hm]. subst.
  unfold over_threshold in Hth. cbn [datetime_now] in Hth.
  run_iteration. rewrite Hth. reflexivity.
Qed.

(** The same sample when the mail function fails, before or after the
    message is handed over: the call is made, the flag stays down, and the
    loop does not take the alert for sent. *)
Lemma iteration_off_alert_failed (w : World) (off : Z) (msg : string) :
  plug_update w = Return false ->
  over_threshold config off w = true ->
  smtp w = Raise (Exception msg) ->
  let r := iteration config w (mkMonitor (Some off) false) in
  monitor r = mkMonitor (Some off) false /\ status r = Running /\
  events (trace r) = [alert_of off w] /\ alerts_sent (trace r) = 0%nat.
Proof.
  intros Hq Hth Hm.
  destruct w as [q now [[]|[m| |m]] [[]|[m'| |m']]];
    unfold smtp in Hm; cbn in Hq, Hm; try discriminate Hm; subst;
    unfold over_threshold in Hth; cbn [datetime_now] in Hth;
    unfold alert_of; run_iteration; rewrite Hth; repeat split.
Qed.

(** An On sample that ends an episode whose alert is out, whatever becomes
    of the recovery mail, short of an interrupt. *)
Lemma iteration_on_recovery (w : World) (off : Z) :
  plug_update w = Return true ->
  answers (smtp w) = true ->
  let total_downtime := (total_seconds (datetime_now w - off) / 60)%Q in
  let r := iteration config w (mkMonitor (Some off) true) in
  monitor r = init /\ status r = Running /\
  events (trace r) = [RecoveryTriggered total_downtime].
Proof.
  intros Hq Hm.
  destruct w as [q now [[]|[m| |m]] [[]|[m'| |m']]];
    unfold smtp in Hm; cbn in Hq, Hm; subst;
    try discriminate; repeat split.
Qed.

Lemma loop_eta (r : Loop) : r = mkLoop (monitor r) (trace r) (status r).
Proof. destruct r; reflexivity. Qed.

End Steps.

(** ** Runs of the loop *)

Ltac split_threshold :=
  repeat match goal with
    | |- context [Qle_bool ?a ?b] => destruct (Qle_bool a b) eqn:?
    end;
  cbn -[Qle_bool total_seconds Qdiv].

Section Loop.

Variable config : Config.

Lemma monitor_loop_cons (w : World) (ws : list World) (self : KasaMonitor) :
  status (iteration config w self) = Running ->
  monitor_loop config (w :: ws) self =
    let r := monitor_loop config ws (monitor (iteration config w self)) in
    mkLoop (monitor r) (trace (iteration config w self) ++ trace r) (status r).
Proof.
  intros H. cbn [monitor_loop].
  destruct (iteration config w self) as [self' out st]. cbn in H. subst st.
  cbn. destruct (monitor_loop config ws self'); reflexivity.
Qed.

Lemma monitor_loop_app (ws1 ws2 : list World) (self : KasaMonitor) :
  status (monitor_loop config ws1 self) = Running ->
  monitor_loop config (ws1 ++ ws2) self =
    let r := monitor_loop config ws2 (monitor (monitor_loop config ws1 self)) in
    mkLoop (monitor r) (trace (monitor_loop config ws1 self) ++ trace r) (status r).
Proof.
  revert self. induction ws1 as [|w ws1 IH]; intros self H.
  - cbn. destruct (monitor_loop config ws2 self); reflexivity.
  - cbn [app monitor_loop] in *.
    destruct (iteration config w self) as [self' out [| |e]];
      try discriminate H.
    specialize (IH self').
    destruct (monitor_loop config ws1 self') as [self1 out1 st1].
    cbn [status monitor trace] in *. rewrite (IH H).
    cbn. rewrite app_assoc. reflexivity.
Qed.

End Loop.

(** Runs the first iteration of a loop by its equation [H]. *)
Ltac step_with H :=
  rewrite monitor_loop_cons by (rewrite H; reflexivity);
  cbv zeta in H |- *; rewrite H; cbn [monitor trace status].

Lemma events_app (t1 t2 : list Action) :
  events (t1 ++ t2) = events t1 ++ events t2.
Proof.
  induction t1 as [|a t1 IH]; [reflexivity|].
  destruct a; cbn; rewrite IH; reflexivity.
Qed.

Lemma delivered_app (t1 t2 : list Action) :
  delivered (t1 ++ t2) = delivered t1 ++ delivered t2.
Proof.
  induction t1 as [|a t1 IH]; [reflexivity|].
  destruct a; cbn; rewrite IH; reflexivity.
Qed.

Lemma alerts_sent_app (t1 t2 : list Action) :
  alerts_sent (t1 ++ t2) = (alerts_sent t1 + alerts_sent t2)%nat.
Proof.
  induction t1 as [|a t1 IH]; [reflexivity|].
  destruct a as [[| |] text| | |]; cbn; rewrite ?IH; try reflexivity.
  apply Nat.add_assoc.
Qed.

Section Runs.

Variable config : Config.

Lemma invariant_iteration (w : World) (self : KasaMonitor) :
  invariant self -> invariant (monitor (iteration config w self)).
Proof.
  unfold invariant. all_cases self w; run_iteration; split_threshold;
    intros H; try discriminate; try exact H; intros; discriminate.
Qed.

Lemma invariant_monitor_loop (ws : list World) (self : KasaMonitor) :
  invariant self -> invariant (monitor (monitor_loop config ws self)).
Proof.
  revert self. induction ws as [|w ws IH]; intros self H; [exact H|].
  cbn [monitor_loop]. pose proof (invariant_iteration w self H) as Hw.
  destruct (iteration config w self) as [self' out [| |e]]; try exact Hw.
  specialize (IH self' Hw).
  destruct (monitor_loop config ws self'); exact IH.
Qed.

(** A run of failed queries changes nothing and notifies nobody. *)
Lemma monitor_loop_unknowns (us : list World) (self : KasaMonitor) :
  Forall Unknown us ->
  monitor (monitor_loop config us self) = self /\
  events (trace (monitor_loop config us self)) = [] /\
  delivered (trace (monitor_loop config us self)) = [] /\
  status (monitor_loop config us self) = Running.
Proof.
  induction 1 as [|u us [msg Hu] _ IH]; [repeat split|].
  rewrite monitor_loop_cons; rewrite (iteration_unknown config u self msg Hu);
    [|reflexivity].
  cbn [monitor trace status]. destruct IH as (-> & He & Hd & ->).
  rewrite events_app, delivered_app, He, Hd. repeat split.
Qed.

(** A run of On samples outside an episode does the same. *)
Lemma monitor_loop_ons_idle (ons : list World) (self : KasaMonitor) :
  Forall On ons -> off_since self = None ->
  monitor (monitor_loop config ons self) = self /\
  events (trace (monitor_loop config ons self)) = [] /\
  status (monitor_loop config ons self) = Running.
Proof.
  induction 1 as [|w ons Hw _ IH]; intros Hoff; [repeat split|].
  rewrite monitor_loop_cons; rewrite (iteration_on_idle config w self Hw Hoff);
    [|reflexivity].
  cbn [monitor trace status]. destruct (IH Hoff) as (-> & He & ->).
  rewrite events_app, He. repeat split.
Qed.

(** Short of an interrupt, an iteration ends in the wait and the loop goes
    round again. *)
Lemma iteration_running (w : World) (self : KasaMonitor) :
  uninterrupted w = true ->
  status (iteration config w self) = Running /\
  last (trace (iteration config w self)) (Log INFO "") =
    Sleep (check_interval config).
Proof.
  unfold uninterrupted.
  all_cases self w; run_iteration; split_threshold; intros H;
    try discriminate H; split; reflexivity.
Qed.

Lemma monitor_loop_running (ws : list World) (self : KasaMonitor) :
  forallb uninterrupted ws = true ->
  status (monitor_loop config ws self) = Running.
Proof.
  revert self. induction ws as [|w ws IH]; intros self H; [reflexivity|].
  cbn [forallb] in H. apply andb_true_iff in H as [Hw Hws].
  rewrite monitor_loop_cons by apply (iteration_running w self Hw).
  cbn [status]. apply IH, Hws.
Qed.

(** *** Inside an episode *)

Lemma sample_inside_episode (w : World) :
  uninterrupted w = true -> is_on w = false ->
  (Off w /\ is_off w = true) \/ (Unknown w /\ is_off w = false).
Proof.
  unfold uninterrupted, is_on, is_off, Off, Unknown.
  destruct (plug_update w) as [[|]|[m| |m]]; cbn; intros H1 H2;
    try discriminate; [left|right]; eauto.
Qed.

(** Once the alert is out, the rest of the episode is silent. *)
Lemma episode_alerted (rest : list World) (started_at : Z) :
  forallb uninterrupted rest = true ->
  forallb (fun w => negb (is_on w)) rest = true ->
  let r := monitor_loop config rest (mkMonitor (Some started_at) true) in
  events (trace r) = [] /\ delivered (trace r) = [] /\
  alerts_sent (trace r) = 0%nat.
Proof.
  induction rest as [|w rest IH]; intros Hun Hno; [repeat split|].
  cbn [forallb] in Hun, Hno.
  apply andb_true_iff in Hun as [Hw Hun], Hno as [Hw' Hno].
  apply negb_true_iff in Hw'.
  assert (Hstep : exists out,
            iteration config w (mkMonitor (Some started_at) true) =
              mkLoop (mkMonitor (Some started_at) true) out Running /\
            events out = [] /\ delivered out = [] /\ alerts_sent out = 0%nat).
  { destruct (sample_inside_episode w Hw Hw') as [[Hoff _]|[[msg Hu] _]].
    - rewrite (iteration_off_silent config w started_at true Hoff
                 (andb_false_r _)).
      eexists. repeat split.
    - rewrite (iteration_unknown config w _ msg Hu). eexists. repeat split. }
  destruct Hstep as (out & Hit & He & Hd & Hs).
  cbv zeta. step_with Hit.
  rewrite events_app, delivered_app, alerts_sent_app, He, Hd, Hs.
  apply (IH Hun Hno).
Qed.

(** Until the alert is taken for sent, every due sample raises it; the first
    one whose mail function returns [True] is the last. *)
Lemma episode_dispatch (rest : list World) (started_at : Z) :
  forallb uninterrupted rest = true ->
  forallb (fun w => negb (is_on w)) rest = true ->
  let r := monitor_loop config rest (mkMonitor (Some started_at) false) in
  events (trace r) =
    map (alert_of started_at) (dispatches config started_at rest) /\
  alerts_sent (trace r) =
    Nat.b2n (existsb (fun w => due config started_at w && smtp_ok w) rest).
Proof.
  induction rest as [|w rest IH]; intros Hun Hno; [repeat split|].
  cbn [forallb] in Hun, Hno.
  apply andb_true_iff in Hun as [Hw Hun], Hno as [Hw' Hno].
  apply negb_true_iff in Hw'.
  specialize (IH Hun Hno). cbv zeta in IH. destruct IH as (IHe & IHs).
  cbv zeta. cbn [existsb dispatches]. unfold due at 1 2.
  destruct (sample_inside_episode w Hw Hw') as [[Hoff ->]|[[msg Hu] ->]].
  - cbn [andb]. destruct (over_threshold config started_at w) eqn:Hth.
    + unfold uninterrupted in Hw. apply andb_true_iff in Hw as [_ Hmail].
      unfold smtp_ok. destruct (smtp w) as [[]|[m| |m]] eqn:Hsm;
        try discriminate Hmail.
      * pose proof (iteration_off_alert_sent config w started_at Hoff Hth Hsm)
          as Hit.
        step_with Hit.
        destruct (episode_alerted rest started_at Hun Hno) as (He & _ & Hs).
        rewrite events_app, alerts_sent_app, He, Hs. repeat split.
      * destruct (iteration_off_alert_failed config w started_at m Hoff Hth Hsm)
          as (Hm' & Hs' & He' & Ha').
        rewrite monitor_loop_cons by exact Hs'. cbv zeta. cbn [trace].
        rewrite Hm', events_app, alerts_sent_app, He', Ha', IHe, IHs.
        split; reflexivity.
    + assert (Hit := iteration_off_silent config w started_at false Hoff).
      rewrite Hth in Hit. specialize (Hit eq_refl).
      step_with Hit. rewrite events_app, alerts_sent_app.
      cbn [andb orb events alerts_sent app]. split; [exact IHe|exact IHs].
  - pose proof (iteration_unknown config w
                  (mkMonitor (Some started_at) false) msg Hu) as Hit.
    step_with Hit. rewrite events_app, alerts_sent_app.
    cbn [andb orb events alerts_sent app]. split; [exact IHe|exact IHs].
Qed.

(** Every notification of an episode is an alert. *)
Lemma alerts_map_alert_of (started_at : Z) (ws : list World) :
  alerts (map (alert_of started_at) ws) = map (alert_of started_at) ws.
Proof.
  induction ws as [|w ws IH]; [reflexivity|].
  unfold alerts in *. cbn [map filter alert_of is_alert]. rewrite IH.
  reflexivity.
Qed.

Lemma dispatches_nil (rest : list World) (started_at : Z) :
  length (dispatches config started_at rest) = 0%nat <->
  existsb (due config started_at) rest = false.
Proof.
  induction rest as [|w rest IH]; [split; reflexivity|].
  cbn [dispatches existsb].
  destruct (due config started_at w); cbn [orb length]; [|exact IH].
  split; intros H; discriminate H.
Qed.

(** When no alert mail fails, the first due sample is the only one that
    raises the alert. *)
Lemma dispatches_all_ok (rest : list World) (started_at : Z) :
  forallb smtp_ok (dispatches config started_at rest) = true ->
  length (dispatches config started_at rest) =
    Nat.b2n (existsb (due config started_at) rest).
Proof.
  induction rest as [|w rest IH]; intros H; [reflexivity|].
  cbn [dispatches existsb] in *.
  destruct (due config started_at w); cbn [orb]; [|exact (IH H)].
  cbn [forallb] in H. apply andb_true_iff in H as [Hok _].
  rewrite Hok. reflexivity.
Qed.

(** The sample that opens an episode is not due when the threshold is
    positive: no time has passed. *)
Lemma not_due_at_start (w : World) :
  (0 < alert_threshold config)%Q ->
  due config (datetime_now w) w = false.
Proof.
  intros Hthr. unfold due, over_threshold. rewrite Z.sub_diag.
  destruct (Qle_bool _ _) eqn:E; [|apply andb_false_r].
  apply Qle_bool_iff in E. exfalso. apply (Qlt_not_le _ _ Hthr).
  eapply Qle_trans; [exact E|]. cbv. discriminate.
Qed.

End Runs.

(** * The claims *)

(** C8.  Whatever the state of the monitor and whatever the iteration meets,
    one iteration notifies at most once: the list of notifications it raises
    has at most one element, so it never holds an alert together with a
    recovery. *)
Theorem one_event_per_sample (config : Config) (w : World) (self : KasaMonitor) :
  let es := events (trace (iteration config w self)) in
  (length es <= 1)%nat /\ (alerts es = [] \/ recoveries es = []).
Proof.
  all_cases self w; run_iteration; split_threshold; split; auto.
Qed.

(** C9.  The invariant "alert_sent implies off_since is not None" holds for
    the monitor [__init__] builds and is kept by every iteration, hence by
    every run of the loop; an iteration raises [alert_sent] only inside an
    episode that it leaves open, and an iteration that clears [off_since]
    leaves [alert_sent] false. *)
Theorem alert_sent_implies_episode (config : Config) :
  invariant init /\
  (forall w self, invariant self -> invariant (monitor (iteration config w self))) /\
  (forall ws, invariant (monitor (monitor_loop config ws init))) /\
  (forall w self,
     alert_sent self = false ->
     alert_sent (monitor (iteration config w self)) = true ->
     off_since self <> None /\
     off_since (monitor (iteration config w self)) = off_since self) /\
  (forall w self,
     off_since self <> None ->
     off_since (monitor (iteration config w self)) = None ->
     alert_sent (monitor (iteration config w self)) = false).
Proof.
  split; [|split; [|split; [|split]]].
  - intros H; discriminate H.
  - intros w self. apply invariant_iteration.
  - intros ws. apply invariant_monitor_loop. intros H; discriminate H.
  - intros w self. all_cases self w; run_iteration; split_threshold;
      intros H1 H2; try discriminate; split; congruence.
  - intros w self. all_cases self w; run_iteration; split_threshold;
      intros H1 H2; congruence.
Qed.

(** C10.  An Off sample met outside an episode opens the episode at the
    current time and notifies nobody, whatever the threshold (zero and
    negative ones included): the threshold is compared only when
    [off_since] is already set, so every alert comes from an Off sample met
    inside an episode, the second of the episode at the earliest. *)
Theorem no_alert_on_episode_creation
  (config : Config) (w : World) (self : KasaMonitor) :
  off_since self = None -> Off w ->
  let r := iteration config w self in
  events (trace r) = [] /\
  monitor r = mkMonitor (Some (datetime_now w)) (alert_sent self) /\
  status r = Running /\
  forall w' self' m,
    In (AlertTriggered m) (events (trace (iteration config w' self'))) ->
    Off w' /\ exists off, off_since self' = Some off /\
                          over_threshold config off w' = true.
Proof.
  intros Hoff Hw r. subst r.
  rewrite (iteration_off_idle config w self Hw Hoff).
  split; [reflexivity|]. split; [reflexivity|]. split; [reflexivity|].
  intros w' self' m. unfold Off, over_threshold.
  all_cases self' w'; run_iteration; split_threshold;
    intros H; try contradiction;
    destruct H as [H|[]]; try discriminate;
    (split; [reflexivity | eexists; split; [reflexivity | assumption]]).
Qed.

(** The first Off sample under a threshold of -5 s: still no alert. *)
Lemma no_alert_on_episode_creation_witness :
  off_since init = None /\ Off (off_at 0) /\
  events (trace (iteration (mkConfig 60 (-5)) (off_at 0) init)) = [].
Proof.
  split; [reflexivity|]. split; [reflexivity|].
  apply (no_alert_on_episode_creation (mkConfig 60 (-5)) (off_at 0) init);
    reflexivity.
Defined.

(** C4.  Failed queries (the Unknown sample) leave the monitor as it was: a
    run of them, met in any state, changes neither [off_since] nor
    [alert_sent], so it neither opens nor closes an episode, and it notifies
    nobody.  Hence an Off sample that follows such a run inside an episode
    measures its time from the unchanged [off_since]: once over the
    threshold it raises the alert with the minutes elapsed since the sample
    that opened the episode.  With the default threshold of 300 s, Off at 0,
    Unknown at 60, 120, 180 and 240, Off at 300 raises one alert, for
    300 s. *)
Theorem unknown_is_noop
  (config : Config) (self : KasaMonitor) (us : list World) :
  Forall Unknown us ->
  let r := monitor_loop config us self in
  (monitor r = self /\ events (trace r) = [] /\ status r = Running) /\
  (forall first w,
     Off first -> Off w ->
     over_threshold config (datetime_now first) w = true ->
     smtp w = Return tt ->
     let r' := monitor_loop config (first :: us ++ [w]) init in
     events (trace r') =
       [AlertTriggered
          (total_seconds (datetime_now w - datetime_now first) / 60)] /\
     monitor r' = mkMonitor (Some (datetime_now first)) true) /\
  (exists m,
     events (trace (monitor_loop DEFAULT_CONFIG
                      (off_at 0 :: map unknown_at [60; 120; 180; 240]
                         ++ [off_at 300]) init)) = [AlertTriggered m] /\
     (m * 60 == 300)%Q).
Proof.
  intros Hus r.
  destruct (monitor_loop_unknowns config us self Hus) as (Hm & He & _ & Hs).
  split; [auto|]. split.
  - intros first w Hf Hw Hth Hmail r'. subst r'.
    rewrite monitor_loop_cons;
      rewrite (iteration_off_idle config first init Hf eq_refl);
      [|reflexivity].
    cbn [monitor trace status alert_sent init].
    rewrite monitor_loop_app;
      destruct (monitor_loop_unknowns config us
                  (mkMonitor (Some (datetime_now first)) false) Hus)
        as (Hm' & He' & _ & Hs'); [|exact Hs'].
    rewrite Hm'. cbn [monitor_loop].
    rewrite (iteration_off_alert_sent config w _ Hw Hth Hmail).
    cbn [monitor trace status]. rewrite !events_app, He'. split; reflexivity.
  - eexists. split; [vm_compute; reflexivity|]. reflexivity.
Qed.

(** Four failed queries inside an episode begun at 0. *)
Lemma unknown_is_noop_witness :
  Forall Unknown (map unknown_at [60; 120; 180; 240]) /\
  monitor (monitor_loop DEFAULT_CONFIG (map unknown_at [60; 120; 180; 240])
             (mkMonitor (Some 0) false)) = mkMonitor (Some 0) false.
Proof.
  assert (H : Forall Unknown (map unknown_at [60; 120; 180; 240])).
  { repeat constructor; exists "timeout"; reflexivity. }
  split; [exact H|].
  apply (unknown_is_noop DEFAULT_CONFIG (mkMonitor (Some 0) false) _ H).
Defined.

(** C7.  Once no episode is open, On samples change nothing and notify
    nobody: after an On sample (not cut short by an interrupt) the monitor is
    outside any episode, and every run of further On samples, like every run
    of On samples from the monitor [__init__] builds, leaves the monitor
    unchanged with no notification, so no recovery is raised again. *)
Theorem on_is_idempotent
  (config : Config) (self : KasaMonitor) (w : World) (ons : list World) :
  On w -> answers (smtp w) = true -> Forall On ons ->
  let closed := monitor (iteration config w self) in
  off_since closed = None /\
  (let r := monitor_loop config ons closed in
   monitor r = closed /\ events (trace r) = [] /\ status r = Running) /\
  (let r := monitor_loop config ons init in
   monitor r = init /\ events (trace r) = [] /\ status r = Running).
Proof.
  intros Hw Hmail Hons closed.
  assert (Hc : off_since closed = None).
  { subst closed. unfold On in Hw. revert Hw Hmail.
    all_cases self w; cbn; intros; try discriminate; reflexivity. }
  split; [exact Hc|]. split.
  - apply (monitor_loop_ons_idle config ons closed Hons Hc).
  - apply (monitor_loop_ons_idle config ons init Hons eq_refl).
Qed.

(** On at 360 s ends an alerted episode; On at 420 s and 480 s are silent. *)
Lemma on_is_idempotent_witness :
  On (on_at 360) /\ answers (smtp (on_at 360)) = true /\
  Forall On [on_at 420; on_at 480] /\
  events (trace (monitor_loop DEFAULT_CONFIG [on_at 420; on_at 480]
                   (monitor (iteration DEFAULT_CONFIG (on_at 360)
                               (mkMonitor (Some 0) true))))) = [].
Proof.
  assert (H : Forall On [on_at 420; on_at 480]).
  { repeat constructor. }
  split; [reflexivity|]. split; [reflexivity|]. split; [exact H|].
  apply (on_is_idempotent DEFAULT_CONFIG (mkMonitor (Some 0) true) (on_at 360)
           [on_at 420; on_at 480] eq_refl eq_refl H).
Defined.

(** C5.  Scenario A: with the default configuration (a poll every 60 s, a
    threshold of 300 s) and Off samples at 0, 60, ..., 300, nothing is raised
    up to 240, the sample at 300 raises the alert, for exactly 300 s (the
    comparison [time_off >= alert_threshold] holds at equality), and it is
    the only alert of the run, also when Off samples go on. *)
Theorem scenario_A :
  check_interval DEFAULT_CONFIG = 60 /\
  (alert_threshold DEFAULT_CONFIG == 300)%Q /\
  events (trace (monitor_loop DEFAULT_CONFIG
                   (map off_at [0; 60; 120; 180; 240]) init)) = [] /\
  (total_seconds (seconds 300 - seconds 0) == alert_threshold DEFAULT_CONFIG)%Q /\
  (exists m,
     events (trace (iteration DEFAULT_CONFIG (off_at 300)
                      (monitor (monitor_loop DEFAULT_CONFIG
                                  (map off_at [0; 60; 120; 180; 240]) init))))
       = [AlertTriggered m] /\
     events (trace (monitor_loop DEFAULT_CONFIG
                      (map off_at [0; 60; 120; 180; 240; 300]) init))
       = [AlertTriggered m] /\
     events (trace (monitor_loop DEFAULT_CONFIG
                      (map off_at [0; 60; 120; 180; 240; 300; 360; 420]) init))
       = [AlertTriggered m] /\
     (m * 60 == 300)%Q).
Proof.
  split; [reflexivity|]. split; [reflexivity|]. split; [reflexivity|].
  split; [reflexivity|].
  eexists. split; [vm_compute; reflexivity|].
  split; [reflexivity|]. split; reflexivity.
Qed.

(** C2.  An iteration raises the recovery notification exactly when it meets
    an On sample while an episode is open with [alert_sent] up, and then
    once; the downtime it carries is the minutes from [off_since] to the
    current time, that is, times 60, the seconds between the two.  An On
    sample that ends an episode whose [alert_sent] is down notifies nobody.
    In both cases the episode is gone afterwards.  Scenario C: Off from 0,
    alert at 300, On at 360 raises one recovery, for 360 s. *)
Theorem recovery_iff_alerted_episode_closed
  (config : Config) (w : World) (self : KasaMonitor) :
  let r := iteration config w self in
  (recoveries (events (trace r)) <> [] <->
   On w /\ exists off, off_since self = Some off /\ alert_sent self = true) /\
  (length (recoveries (events (trace r))) <= 1)%nat /\
  (forall d, In (RecoveryTriggered d) (events (trace r)) ->
     exists off, off_since self = Some off /\
       d = (total_seconds (datetime_now w - off) / 60)%Q /\
       (d * 60 == inject_Z (datetime_now w - off) / 1000000)%Q) /\
  (On w -> off_since self <> None -> alert_sent self = false ->
     events (trace r) = [] /\ monitor r = init) /\
  (On w -> answers (smtp w) = true -> off_since (monitor r) = None) /\
  (exists d,
     events (trace (monitor_loop DEFAULT_CONFIG
                      (map off_at [0; 60; 120; 180; 240; 300] ++ [on_at 360])
                      init)) =
       [AlertTriggered (300000000 # 60000000); RecoveryTriggered d] /\
     (d * 60 == 360)%Q /\
     monitor (monitor_loop DEFAULT_CONFIG
                (map off_at [0; 60; 120; 180; 240; 300] ++ [on_at 360]) init)
       = init).
Proof.
  intros r. subst r. split; [|split; [|split; [|split; [|split]]]].
  - unfold On. all_cases self w; run_iteration; split_threshold;
      (split; [intros H; try (exfalso; apply H; reflexivity); eauto
              | intros [H (o & Ho & Hs)]; try discriminate]).
  - all_cases self w; run_iteration; split_threshold; auto.
  - intros d. all_cases self w; run_iteration; split_threshold;
      intros H; try contradiction;
      destruct H as [H|[]]; try discriminate;
      injection H as <-; eexists; (split; [reflexivity|]); (split; [reflexivity|]);
      unfold total_seconds; field.
  - unfold On. all_cases self w; run_iteration; intros; try discriminate;
      try congruence; split; reflexivity.
  - unfold On. all_cases self w; run_iteration; intros; try discriminate;
      reflexivity.
  - eexists. split; [vm_compute; reflexivity|]. split; reflexivity.
Qed.

(** C6.  A query that fails with an exception makes [get_plug_state] return
    [None], the Unknown sample, after an error record; nothing is raised to
    the loop.  Whatever statements stand inside the [try] of the loop, an
    exception they raise is caught there: the state they left is kept, an
    error is logged, the loop sleeps for the check interval and goes round
    again.  So an iteration whose plug query and mail exchange answer or fail
    with an exception ends in the wait with the loop running, and a run of
    such iterations, however long, leaves the loop running. *)
Theorem failures_are_contained
  (config : Config) (ws : list World) (self : KasaMonitor) :
  forallb uninterrupted ws = true ->
  status (monitor_loop config ws self) = Running /\
  (forall w self', uninterrupted w = true ->
     status (iteration config w self') = Running /\
     last (trace (iteration config w self')) (Log INFO "") =
       Sleep (check_interval config)) /\
  (forall w self' msg, plug_update w = Raise (Exception msg) ->
     get_plug_state w self' =
       mkRun self' [Log ERROR "Error getting plug state"] (Return None) /\
     iteration config w self' =
       mkLoop self'
         [Log ERROR "Error getting plug state";
          Log WARNING "Could not determine plug state";
          Sleep (check_interval config)] Running) /\
  (forall (body : M unit) self' msg,
     outcome (body self') = Raise (Exception msg) ->
     guarded config body self' =
       mkLoop (self_after (body self'))
         (output (body self') ++
            [Log ERROR "Unexpected error in monitor loop";
             Sleep (check_interval config)]) Running).
Proof.
  intros Hws. split; [apply monitor_loop_running, Hws|]. split; [|split].
  - intros w self'. apply iteration_running.
  - intros w self' msg Hq. split.
    + destruct w as [q now mail]. cbn in Hq. subst q. reflexivity.
    + apply (iteration_unknown config w self' msg Hq).
  - intros body self' msg Hb. unfold guarded.
    destruct (body self') as [s o res]. cbn in Hb. subst res. reflexivity.
Qed.

(** A run with a failed query and two failed mails keeps going; statements
    that set a field and then raise a TypeError are caught, the field kept. *)
Lemma failures_are_contained_witness :
  forallb uninterrupted
    [off_at 0; unknown_at 60; off_at_smtp_down 400; on_at_smtp_down 460] = true /\
  status (monitor_loop DEFAULT_CONFIG
            [off_at 0; unknown_at 60; off_at_smtp_down 400; on_at_smtp_down 460]
            init) = Running /\
  guarded DEFAULT_CONFIG
    (set_off_since (Some 5) ;; raise (Exception "TypeError")) init =
    mkLoop (mkMonitor (Some 5) false)
      [Log ERROR "Unexpected error in monitor loop"; Sleep 60] Running.
Proof.
  split; [reflexivity|].
  pose proof (failures_are_contained DEFAULT_CONFIG
                [off_at 0; unknown_at 60; off_at_smtp_down 400;
                 on_at_smtp_down 460] init eq_refl) as H.
  split; [exact (proj1 H)|].
  exact (proj2 (proj2 (proj2 H))
           (set_off_since (Some 5) ;; raise (Exception "TypeError"))
           init "TypeError" eq_refl).
Defined.

(** C3, as stated, fails.  Inside an episode begun at 0, the Off sample at
    300 s raises the alert; with the mail server up the iteration ends with
    [alert_sent] true, with the mail server down it ends with [alert_sent]
    false.  After the failure the next Off sample raises the alert again: the
    run Off at 0, Off at 300 (mail fails), Off at 360 raises two alerts. *)
Lemma dispatch_failure_changes_state :
  let self := mkMonitor (Some 0) false in
  let r_ok := iteration DEFAULT_CONFIG (off_at 300) self in
  let r_fail := iteration DEFAULT_CONFIG (off_at_smtp_down 300) self in
  events (trace r_ok) = events (trace r_fail) /\
  length (events (trace r_ok)) = 1%nat /\
  monitor r_ok = mkMonitor (Some 0) true /\
  monitor r_fail = mkMonitor (Some 0) false /\
  monitor r_fail <> monitor r_ok /\
  length (alerts (events (trace (monitor_loop DEFAULT_CONFIG
            [off_at 0; off_at_smtp_down 300; off_at 360] init)))) = 2%nat.
Proof.
  cbv zeta. repeat split. discriminate.
Qed.

(** C3, amended.  Take an iteration and the same iteration with the mail
    exchange failing.  Both raise the same notifications and leave the loop
    in the same status.  If the notification is a recovery, both end in the same
    state, outside any episode, so no later poll raises it again.  If it is
    an alert, the iteration whose mail went out raises [alert_sent]; the one
    whose mail failed leaves the monitor as it was, [alert_sent] still
    false, and the next Off sample over the threshold raises the alert again,
    while after the successful one it raises nothing. *)
Theorem dispatch_failure_effect
  (config : Config) (w_ok w_fail : World) (self : KasaMonitor) (msg : string) :
  plug_update w_fail = plug_update w_ok ->
  datetime_now w_fail = datetime_now w_ok ->
  smtp w_ok = Return tt ->
  smtp w_fail = Raise (Exception msg) ->
  let r_ok := iteration config w_ok self in
  let r_fail := iteration config w_fail self in
  events (trace r_fail) = events (trace r_ok) /\
  status r_fail = status r_ok /\
  (recoveries (events (trace r_ok)) <> [] ->
     monitor r_fail = monitor r_ok /\ off_since (monitor r_ok) = None /\
     forall ons, Forall On ons ->
       events (trace (monitor_loop config ons (monitor r_fail))) = []) /\
  (alerts (events (trace r_ok)) <> [] ->
     alert_sent self = false /\
     monitor r_ok = mkMonitor (off_since self) true /\
     monitor r_fail = self /\
     forall w off, Off w -> uninterrupted w = true ->
       off_since self = Some off -> over_threshold config off w = true ->
       events (trace (iteration config w (monitor r_ok))) = [] /\
       events (trace (iteration config w (monitor r_fail))) =
         [AlertTriggered (total_seconds (datetime_now w - off) / 60)]).
Proof.
  intros Hq Hnow Hok Hfail r_ok r_fail.
  assert (Hstates :
    events (trace r_fail) = events (trace r_ok) /\
    status r_fail = status r_ok /\
    (recoveries (events (trace r_ok)) <> [] ->
       monitor r_fail = monitor r_ok /\ off_since (monitor r_ok) = None) /\
    (alerts (events (trace r_ok)) <> [] ->
       alert_sent self = false /\
       monitor r_ok = mkMonitor (off_since self) true /\
       monitor r_fail = self)).
  { subst r_ok r_fail.
    destruct w_ok as [q now [[]|e1] [[]|e2]],
             w_fail as [q' now' [[]|[m1| |m1]] [[]|[m2| |m2]]];
      unfold smtp in Hok, Hfail; cbn in Hq, Hnow, Hok, Hfail;
      try discriminate Hok; try discriminate Hfail; subst q' now';
      destruct self as [[off|] [|]]; destruct q as [[|]|[m| |m]];
      run_iteration; split_threshold;
      (split; [reflexivity|]); (split; [reflexivity|]);
      split; intros H; try (exfalso; apply H; reflexivity);
      repeat split. }
  destruct Hstates as (He & Hs & Hrec & Hal).
  split; [exact He|]. split; [exact Hs|]. split.
  - intros H. destruct (Hrec H) as [Hm Hoff]. split; [exact Hm|].
    split; [exact Hoff|]. intros ons Hons. rewrite Hm.
    apply (monitor_loop_ons_idle config ons _ Hons Hoff).
  - intros H. destruct (Hal H) as (Hsent & Hm1 & Hm2).
    split; [exact Hsent|]. split; [exact Hm1|]. split; [exact Hm2|].
    intros w off Hw Hun Hoff Hth. rewrite Hm1, Hm2.
    destruct self as [o sent]. cbn in Hsent, Hoff. subst o sent.
    cbn [off_since]. split.
    + rewrite (iteration_off_silent config w off true Hw); [reflexivity|].
      apply andb_false_r.
    + unfold uninterrupted in Hun. apply andb_true_iff in Hun as [_ Hun].
      destruct (smtp w) as [[]|[m| |m]] eqn:Hmail; try discriminate Hun.
      * rewrite (iteration_off_alert_sent config w off Hw Hth Hmail).
        reflexivity.
      * destruct (iteration_off_alert_failed config w off m Hw Hth Hmail)
          as (_ & _ & He' & _).
        exact He'.
Qed.

(** The due sample at 300 s, mail server up and down. *)
Lemma dispatch_failure_effect_witness :
  plug_update (off_at_smtp_down 300) = plug_update (off_at 300) /\
  datetime_now (off_at_smtp_down 300) = datetime_now (off_at 300) /\
  smtp (off_at 300) = Return tt /\
  smtp (off_at_smtp_down 300) = Raise (Exception "SMTPServerDisconnected") /\
  events (trace (iteration DEFAULT_CONFIG (off_at_smtp_down 300)
                   (mkMonitor (Some 0) false))) =
  events (trace (iteration DEFAULT_CONFIG (off_at 300)
                   (mkMonitor (Some 0) false))).
Proof.
  repeat (split; [reflexivity|]).
  apply (dispatch_failure_effect DEFAULT_CONFIG (off_at 300)
           (off_at_smtp_down 300) (mkMonitor (Some 0) false)
           "SMTPServerDisconnected" eq_refl eq_refl eq_refl eq_refl).
Defined.

(** C1, as stated, fails.  With the default threshold of 300 s, take the
    episode Off at 0, Off at 300, Off at 360, the mail server being down at
    300 and 360.  The samples are all Off, two of them are due, and the
    alert is raised twice, not at most once; and none of the two reaches the
    mail server, so counting the alerts that went out gives zero although a
    sample is due. *)
Lemma alert_repeats_when_mail_fails :
  let episode := [off_at 0; off_at_smtp_down 300; off_at_smtp_down 360] in
  let r := monitor_loop DEFAULT_CONFIG episode init in
  forallb is_off episode = true /\
  forallb uninterrupted episode = true /\
  existsb (due DEFAULT_CONFIG (seconds 0)) episode = true /\
  length (alerts (events (trace r))) = 2%nat /\
  ~ (length (alerts (events (trace r))) <= 1)%nat /\
  length (alerts (delivered (trace r))) = 0%nat.
Proof.
  cbv zeta. repeat split. cbn. lia.
Qed.

(** C1, amended.  Take any run of the loop that ends outside an episode, then
    an episode: an Off sample followed by samples none of which is On, no
    interrupt, the threshold being positive.  The notifications of the
    episode are alerts, one for each Off sample whose time since the first
    sample is at or over the threshold, up to and including the first such
    sample whose mail function returns [True], and none after it.  So an
    alert is raised if and only if some Off sample of the episode is at or
    over the threshold; the loop takes at most one alert for sent, and it
    takes one for sent if and only if the mail function returns [True] on
    some such sample; and when none of the alerts raised fails, at most one
    alert is raised, exactly one if and only if some Off sample of the
    episode is at or over the threshold. *)
Theorem one_alert_per_episode
  (config : Config) (pre : list World) (first : World) (rest : list World) :
  (0 < alert_threshold config)%Q ->
  let self := monitor (monitor_loop config pre init) in
  off_since self = None ->
  Off first ->
  forallb (fun w => negb (is_on w)) rest = true ->
  forallb uninterrupted rest = true ->
  let r := monitor_loop config (first :: rest) self in
  let started_at := datetime_now first in
  events (trace r) =
    map (alert_of started_at) (dispatches config started_at rest) /\
  alerts (events (trace r)) = events (trace r) /\
  (alerts (events (trace r)) <> [] <->
   existsb (due config started_at) (first :: rest) = true) /\
  (alerts_sent (trace r) <= 1)%nat /\
  (alerts_sent (trace r) = 1%nat <->
   existsb (fun w => due config started_at w && smtp_ok w) (first :: rest)
     = true) /\
  (forallb smtp_ok (dispatches config started_at rest) = true ->
   (length (alerts (events (trace r))) <= 1)%nat /\
   (length (alerts (events (trace r))) = 1%nat <->
    existsb (due config started_at) (first :: rest) = true)).
Proof.
  intros Hthr self Hoff Hfirst Hno Hun r started_at. subst started_at.
  assert (Hsent : alert_sent self = false).
  { pose proof (invariant_monitor_loop config pre init) as Hinv.
    fold self in Hinv. unfold invariant in Hinv.
    destruct (alert_sent self); [|reflexivity].
    exfalso. apply Hinv; [intros H; discriminate H|reflexivity|exact Hoff]. }
  pose proof (iteration_off_idle config first self Hfirst Hoff) as Hit.
  rewrite Hsent in Hit.
  assert (Hr : events (trace r) =
                 events (trace (monitor_loop config rest
                                  (mkMonitor (Some (datetime_now first)) false))) /\
               alerts_sent (trace r) =
                 alerts_sent (trace (monitor_loop config rest
                                  (mkMonitor (Some (datetime_now first)) false)))).
  { subst r. step_with Hit. rewrite events_app, alerts_sent_app.
    split; reflexivity. }
  destruct Hr as [He Hs]. rewrite He, Hs.
  destruct (episode_dispatch config rest (datetime_now first) Hun Hno)
    as [Hev Hsn].
  rewrite Hev, Hsn, alerts_map_alert_of. cbn [existsb].
  rewrite (not_due_at_start config first Hthr). cbn [andb orb].
  pose proof (dispatches_nil config rest (datetime_now first)) as Hnil.
  split; [reflexivity|]. split; [reflexivity|]. split; [|split; [|split]].
  - revert Hnil.
    destruct (existsb (due config (datetime_now first)) rest);
      destruct (dispatches config (datetime_now first) rest) as [|d ds];
      cbn [map length]; intros [Hnil1 Hnil2].
    + discriminate (Hnil1 eq_refl).
    + split; [reflexivity|intros _; discriminate].
    + split; intros H; [exfalso; apply H; reflexivity|discriminate H].
    + discriminate (Hnil2 eq_refl).
  - destruct (existsb _ rest); cbn; lia.
  - destruct (existsb _ rest); cbn; split; intros H;
      try reflexivity; discriminate H.
  - intros Hok. rewrite length_map.
    rewrite (dispatches_all_ok config rest (datetime_now first) Hok).
    destruct (existsb (due config (datetime_now first)) rest); cbn;
      (split; [lia|]); split; intros H; try reflexivity; discriminate H.
Qed.

(** An episode after a first outage and recovery: opened at 400 s, a failed
    query, a due sample whose mail is handed over but whose [quit()] fails
    at 700 s, a due sample whose mail function returns [True] at 760 s, one
    more Off sample.  Two alerts are raised, one is taken for sent. *)
Lemma one_alert_per_episode_witness :
  (0 < alert_threshold DEFAULT_CONFIG)%Q /\
  off_since (monitor (monitor_loop DEFAULT_CONFIG
                        [off_at 0; off_at 300; on_at 360] init)) = None /\
  Off (off_at 400) /\
  forallb (fun w => negb (is_on w))
    [unknown_at 460; off_at_quit_fails 700; off_at 760; off_at 820] = true /\
  forallb uninterrupted
    [unknown_at 460; off_at_quit_fails 700; off_at 760; off_at 820] = true /\
  alerts_sent (trace
    (monitor_loop DEFAULT_CONFIG
       [off_at 400; unknown_at 460; off_at_quit_fails 700; off_at 760;
        off_at 820]
       (monitor (monitor_loop DEFAULT_CONFIG
                   [off_at 0; off_at 300; on_at 360] init)))) = 1%nat.
Proof.
  split; [reflexivity|]. split; [reflexivity|]. split; [reflexivity|].
  split; [reflexivity|]. split; [reflexivity|].
  pose proof (one_alert_per_episode DEFAULT_CONFIG
                [off_at 0; off_at 300; on_at 360] (off_at 400)
                [unknown_at 460; off_at_quit_fails 700; off_at 760; off_at 820]
                eq_refl eq_refl eq_refl eq_refl eq_refl) as H.
  exact (proj2 (proj1 (proj2 (proj2 (proj2 (proj2 H))))) eq_refl).
Defined.

(** * Further properties of the code *)

(** ** The mail functions on their own *)

Ltac unfold_mail :=
  unfold send_email_alert, send_recovery_email, _send_email, format_body,
    try_except, bind, after, perform, get, ret, raise, log, act; cbn.

(** The two mail functions (main.py 78-129) never change the fields of the
    monitor and never raise an [Exception]: whatever goes wrong with the mail
    server or with formatting the message comes back as a result.  They raise
    only what the SMTP exchange raised, an interrupt or another
    non-[Exception], and only when the exchange was reached. *)
Theorem mail_functions_contain_failures
  (w : World) (minutes : Q) (self : KasaMonitor) :
  let alert := send_email_alert w minutes self in
  let recovery := send_recovery_email w minutes self in
  (self_after alert = self /\ self_after recovery = self) /\
  (forall msg, outcome alert <> Raise (Exception msg) /\
               outcome recovery <> Raise (Exception msg)) /\
  (forall e, outcome alert = Raise e \/ outcome recovery = Raise e ->
     smtp w = Raise e /\ off_since self <> None).
Proof.
  all_cases self w; unfold_mail; (split; [split; reflexivity|]);
    (split; [intros m; split; discriminate|]);
    intros e [H|H]; try discriminate H; injection H as <-;
    (split; [reflexivity|discriminate]).
Qed.

(** When a mail function returns [True] the message is with the server, and
    not the other way round.  The function returns [True] exactly when
    [off_since] is set and the whole SMTP exchange, [quit()] included,
    completed.  The message is handed to the server, once, exactly when
    [off_since] is set and the exchange got through [sendmail()]; otherwise no
    message is handed over.  So a [True] means a message handed over; but
    when [quit()] fails after [sendmail()] the message is with the server and
    the function returns [False]. *)
Theorem mail_functions_true_implies_delivered
  (w : World) (minutes : Q) (self : KasaMonitor) :
  let alert := send_email_alert w minutes self in
  let recovery := send_recovery_email w minutes self in
  (outcome alert = Return true <->
   off_since self <> None /\ smtp w = Return tt) /\
  (outcome recovery = Return true <->
   off_since self <> None /\ smtp w = Return tt) /\
  (delivered (output alert) = [AlertTriggered minutes] <->
   off_since self <> None /\ smtp_sendmail w = Return tt) /\
  (delivered (output recovery) = [RecoveryTriggered minutes] <->
   off_since self <> None /\ smtp_sendmail w = Return tt) /\
  (delivered (output alert) <> [AlertTriggered minutes] ->
   delivered (output alert) = []) /\
  (delivered (output recovery) <> [RecoveryTriggered minutes] ->
   delivered (output recovery) = []) /\
  (outcome alert = Return true ->
   delivered (output alert) = [AlertTriggered minutes]) /\
  (outcome recovery = Return true ->
   delivered (output recovery) = [RecoveryTriggered minutes]) /\
  (forall msg, off_since self <> None -> smtp_sendmail w = Return tt ->
     smtp_quit w = Raise (Exception msg) ->
     outcome alert = Return false /\
     delivered (output alert) = [AlertTriggered minutes] /\
     outcome recovery = Return false /\
     delivered (output recovery) = [RecoveryTriggered minutes]).
Proof.
  all_cases self w; unfold_mail;
    repeat match goal with
      | |- _ /\ _ => split
      | |- _ <-> _ => split
      | |- forall _, _ => intro
      end;
    repeat match goal with
      | H : _ /\ _ |- _ => destruct H
      end;
    try discriminate; try reflexivity; try congruence;
    try (split; congruence).
Qed.

(** Called while [off_since] is [None], a mail function (formatting
    [self.off_since.strftime(...)] fails) logs the error and returns [False]
    without reaching the mail server: the run is the same whatever the SMTP
    exchange would have done, an interrupt included. *)
Theorem mail_functions_without_episode
  (w : World) (minutes : Q) (self : KasaMonitor) :
  off_since self = None ->
  send_email_alert w minutes self =
    mkRun self [Notify (AlertTriggered minutes);
                Log ERROR "Failed to send email alert"] (Return false) /\
  send_recovery_email w minutes self =
    mkRun self [Notify (RecoveryTriggered minutes);
                Log ERROR "Failed to send recovery email"] (Return false).
Proof.
  intros H. destruct self as [off sent]. cbn in H. subst off.
  split; reflexivity.
Qed.

(** Outside an episode, with the mail server interrupted from the
    keyboard. *)
Lemma mail_functions_without_episode_witness :
  off_since init = None /\
  outcome (send_email_alert (mkWorld (Return false) 0 (Raise KeyboardInterrupt) (Return tt))
             5 init) = Return false.
Proof.
  split; [reflexivity|].
  pose proof (mail_functions_without_episode
                (mkWorld (Return false) 0 (Raise KeyboardInterrupt) (Return tt)) 5 init
                eq_refl) as H.
  exact (f_equal outcome (proj1 H)).
Defined.

(** ** The loop, beyond single episodes *)

Section More.

Variable config : Config.

(** An iteration that does not leave the loop running is the last. *)
Lemma monitor_loop_stop (w : World) (ws : list World) (self : KasaMonitor) :
  status (iteration config w self) <> Running ->
  monitor_loop config (w :: ws) self = iteration config w self.
Proof.
  intros H. cbn [monitor_loop].
  destruct (iteration config w self) as [self' out [| |e]];
    [exfalso; apply H|..]; reflexivity.
Qed.

Lemma sleeps_app (t1 t2 : list Action) :
  sleeps (t1 ++ t2) = sleeps t1 ++ sleeps t2.
Proof.
  induction t1 as [|a t1 IH]; [reflexivity|].
  destruct a; cbn; rewrite ?IH; reflexivity.
Qed.

Lemma iteration_sleeps_once (w : World) (self : KasaMonitor) :
  uninterrupted w = true ->
  sleeps (trace (iteration config w self)) = [check_interval config].
Proof.
  unfold uninterrupted.
  all_cases self w; run_iteration; split_threshold; intros H;
    try discriminate H; reflexivity.
Qed.

(** The accounts of one iteration: recoveries raised, alerts taken for sent
    and alert mails handed over, with the alert flag as the balance carried
    over. *)
Lemma iteration_balance (w : World) (self : KasaMonitor) :
  let r := iteration config w self in
  (length (recoveries (events (trace r))) <=
   length (alerts (delivered (trace r))) + Nat.b2n (alert_sent self))%nat /\
  (alerts_sent (trace r) <= length (alerts (delivered (trace r))))%nat /\
  (status r = Running ->
   (length (recoveries (events (trace r))) + Nat.b2n (alert_sent (monitor r)) <=
    length (alerts (delivered (trace r))) + Nat.b2n (alert_sent self))%nat /\
   (length (recoveries (events (trace r))) + Nat.b2n (alert_sent (monitor r)) =
    alerts_sent (trace r) + Nat.b2n (alert_sent self))%nat).
Proof.
  all_cases self w; run_iteration; split_threshold;
    (split; [cbn; lia|]); (split; [cbn; lia|]);
    intros H; try discriminate H; cbn; lia.
Qed.

(** Without an On sample the start of the episode stays where it is and the
    alert flag does not go down. *)
Lemma iteration_keeps_episode (w : World) (self : KasaMonitor) (off : Z) :
  is_on w = false -> off_since self = Some off ->
  off_since (monitor (iteration config w self)) = Some off /\
  (alert_sent self = true ->
   alert_sent (monitor (iteration config w self)) = true) /\
  recoveries (events (trace (iteration config w self))) = [].
Proof.
  unfold is_on.
  all_cases self w; run_iteration; split_threshold; intros H1 H2;
    try discriminate; repeat split; try assumption; intros; discriminate.
Qed.

Lemma filter_app_recoveries (es1 es2 : list Event) :
  recoveries (es1 ++ es2) = recoveries es1 ++ recoveries es2.
Proof. apply filter_app. Qed.

Lemma filter_app_alerts (es1 es2 : list Event) :
  alerts (es1 ++ es2) = alerts es1 ++ alerts es2.
Proof. apply filter_app. Qed.

Lemma total_seconds_nonneg (td : Z) : 0 <= td -> (0 <= total_seconds td)%Q.
Proof.
  intros H. unfold total_seconds, Qdiv, Qle. cbn. lia.
Qed.

End More.

(** The loop waits once in every iteration: a run of [n] iterations that no
    interrupt cuts short, failed queries and failed mails included, sleeps
    [n] times, each time for the check interval, and never twice in a row
    without polling. *)
Theorem one_sleep_per_iteration
  (config : Config) (ws : list World) (self : KasaMonitor) :
  forallb uninterrupted ws = true ->
  sleeps (trace (monitor_loop config ws self)) =
    repeat (check_interval config) (length ws).
Proof.
  revert self. induction ws as [|w ws IH]; intros self H; [reflexivity|].
  cbn [forallb] in H. apply andb_true_iff in H as [Hw Hws].
  rewrite monitor_loop_cons by apply (iteration_running config w self Hw).
  cbv zeta. cbn [trace length repeat].
  rewrite sleeps_app, (iteration_sleeps_once config w self Hw), (IH _ Hws).
  reflexivity.
Qed.

(** Two failed queries, a failed mail and a recovery: four sleeps of 60 s. *)
Lemma one_sleep_per_iteration_witness :
  forallb uninterrupted
    [off_at 0; unknown_at 60; off_at_smtp_down 400; on_at 460] = true /\
  sleeps (trace (monitor_loop DEFAULT_CONFIG
                   [off_at 0; unknown_at 60; off_at_smtp_down 400; on_at 460]
                   init)) = [60; 60; 60; 60].
Proof.
  split; [reflexivity|].
  apply (one_sleep_per_iteration DEFAULT_CONFIG
           [off_at 0; unknown_at 60; off_at_smtp_down 400; on_at 460] init
           eq_refl).
Defined.

(** A KeyboardInterrupt during the query of the plug ends the loop at once:
    [monitor_loop] returns, the fields of the monitor are as the iterations
    before left them, the only output of the last iteration is the record
    "Monitor stopped by user" (no sleep), and nothing that would have come
    afterwards is looked at. *)
Theorem keyboard_interrupt_returns
  (config : Config) (pre post : list World) (w : World) (self : KasaMonitor) :
  status (monitor_loop config pre self) = Running ->
  plug_update w = Raise KeyboardInterrupt ->
  monitor_loop config (pre ++ w :: post) self =
    mkLoop (monitor (monitor_loop config pre self))
      (trace (monitor_loop config pre self) ++
         [Log INFO "Monitor stopped by user"])
      Returned.
Proof.
  intros Hpre Hw. rewrite (monitor_loop_app config pre (w :: post) self Hpre).
  cbv zeta.
  assert (Hit : forall s, iteration config w s =
                  mkLoop s [Log INFO "Monitor stopped by user"] Returned).
  { intros s. destruct w as [q now mail]. cbn in Hw. subst q.
    destruct s. reflexivity. }
  rewrite monitor_loop_stop by (rewrite Hit; discriminate).
  rewrite Hit. reflexivity.
Qed.

(** Interrupted at 120 s, inside an episode. *)
Lemma keyboard_interrupt_returns_witness :
  status (monitor_loop DEFAULT_CONFIG [off_at 0; off_at 60] init) = Running /\
  plug_update (interrupted_at 120) = Raise KeyboardInterrupt /\
  monitor_loop DEFAULT_CONFIG
    ([off_at 0; off_at 60] ++ interrupted_at 120 :: [off_at 300]) init =
    mkLoop (mkMonitor (Some 0) false)
      [Log INFO "Plug turned off"; Sleep 60;
       Log INFO "Plug has been off"; Sleep 60;
       Log INFO "Monitor stopped by user"] Returned.
Proof.
  split; [reflexivity|]. split; [reflexivity|].
  apply (keyboard_interrupt_returns DEFAULT_CONFIG [off_at 0; off_at 60]
           [off_at 300] (interrupted_at 120) init eq_refl eq_refl).
Defined.

(** An exception of the query that is neither an [Exception] nor a
    KeyboardInterrupt (SystemExit, a cancellation) is caught by no handler:
    it leaves [monitor_loop] as it was raised, with no log record and no
    sleep, and the fields of the monitor as the iterations before left
    them. *)
Theorem base_exception_propagates
  (config : Config) (pre post : list World) (w : World) (self : KasaMonitor)
  (msg : string) :
  status (monitor_loop config pre self) = Running ->
  plug_update w = Raise (BaseException msg) ->
  monitor_loop config (pre ++ w :: post) self =
    mkLoop (monitor (monitor_loop config pre self))
      (trace (monitor_loop config pre self))
      (Propagated (BaseException msg)).
Proof.
  intros Hpre Hw. rewrite (monitor_loop_app config pre (w :: post) self Hpre).
  cbv zeta.
  assert (Hit : forall s, iteration config w s =
                  mkLoop s [] (Propagated (BaseException msg))).
  { intros s. destruct w as [q now mail]. cbn in Hw. subst q.
    destruct s. reflexivity. }
  rewrite monitor_loop_stop by (rewrite Hit; discriminate).
  rewrite Hit, app_nil_r. reflexivity.
Qed.

(** Cancelled at 120 s, inside an episode. *)
Lemma base_exception_propagates_witness :
  status (monitor_loop DEFAULT_CONFIG [off_at 0; off_at 60] init) = Running /\
  plug_update (cancelled_at 120) = Raise (BaseException "CancelledError") /\
  status (monitor_loop DEFAULT_CONFIG
            ([off_at 0; off_at 60] ++ cancelled_at 120 :: [off_at 300]) init) =
    Propagated (BaseException "CancelledError").
Proof.
  split; [reflexivity|]. split; [reflexivity|].
  exact (f_equal status
           (base_exception_propagates DEFAULT_CONFIG [off_at 0; off_at 60]
              [off_at 300] (cancelled_at 120) init "CancelledError"
              eq_refl eq_refl)).
Defined.

Section Outages.

Variable config : Config.

Lemma no_on_run (ws : list World) (self : KasaMonitor) (off : Z) :
  forallb (fun w => negb (is_on w)) ws = true ->
  off_since self = Some off ->
  let r := monitor_loop config ws self in
  off_since (monitor r) = Some off /\
  (alert_sent self = true -> alert_sent (monitor r) = true) /\
  recoveries (events (trace r)) = [].
Proof.
  revert self. induction ws as [|w ws IH]; intros self Hno Hoff;
    [cbn; auto|].
  cbn [forallb] in Hno. apply andb_true_iff in Hno as [Hw Hno].
  apply negb_true_iff in Hw.
  destruct (iteration_keeps_episode config w self off Hw Hoff)
    as (Hoff' & Hsent' & Hrec').
  destruct (status (iteration config w self)) eqn:Hst.
  - rewrite monitor_loop_cons by exact Hst. cbv zeta. cbn [monitor trace].
    destruct (IH _ Hno Hoff') as (H1 & H2 & H3).
    rewrite events_app, filter_app_recoveries, Hrec', H3. auto.
  - rewrite monitor_loop_stop by (rewrite Hst; discriminate). cbv zeta. auto.
  - rewrite monitor_loop_stop by (rewrite Hst; discriminate). cbv zeta. auto.
Qed.

Lemma monitor_loop_balance (ws : list World) (self : KasaMonitor) :
  let r := monitor_loop config ws self in
  (length (recoveries (events (trace r))) <=
   length (alerts (delivered (trace r))) + Nat.b2n (alert_sent self))%nat /\
  (alerts_sent (trace r) <= length (alerts (delivered (trace r))))%nat /\
  (status r = Running ->
   (length (recoveries (events (trace r))) + Nat.b2n (alert_sent (monitor r)) =
    alerts_sent (trace r) + Nat.b2n (alert_sent self))%nat).
Proof.
  revert self. induction ws as [|w ws IH]; intros self; [cbn; lia|].
  destruct (iteration_balance config w self) as (Hle & Hsd & Hrun).
  destruct (status (iteration config w self)) eqn:Hst.
  - rewrite monitor_loop_cons by exact Hst. cbv zeta. cbn [monitor trace status].
    destruct (Hrun eq_refl) as [Hle' Heq].
    destruct (IH (monitor (iteration config w self))) as (IHle & IHsd & IHeq).
    rewrite events_app, delivered_app, alerts_sent_app, filter_app_recoveries,
      filter_app_alerts, !length_app.
    split; [lia|]. split; [lia|]. intros H. specialize (IHeq H). lia.
  - rewrite monitor_loop_stop by (rewrite Hst; discriminate). cbv zeta.
    split; [exact Hle|]. split; [exact Hsd|]. rewrite Hst. discriminate.
  - rewrite monitor_loop_stop by (rewrite Hst; discriminate). cbv zeta.
    split; [exact Hle|]. split; [exact Hsd|]. rewrite Hst. discriminate.
Qed.

(** An episode in which no sample is due passes in silence. *)
Lemma episode_quiet (rest : list World) (started_at : Z) :
  forallb uninterrupted rest = true ->
  forallb (fun w => negb (is_on w)) rest = true ->
  existsb (due config started_at) rest = false ->
  let r := monitor_loop config rest (mkMonitor (Some started_at) false) in
  status r = Running /\
  monitor r = mkMonitor (Some started_at) false /\
  events (trace r) = [].
Proof.
  induction rest as [|w rest IH]; intros Hun Hno Hdue; [repeat split|].
  cbn [forallb existsb] in Hun, Hno, Hdue.
  apply andb_true_iff in Hun as [Hw Hun], Hno as [Hw' Hno].
  apply negb_true_iff in Hw'. apply orb_false_iff in Hdue as [Hd Hdue].
  specialize (IH Hun Hno Hdue). cbv zeta in IH. destruct IH as (IHs & IHm & IHe).
  assert (Hit : exists out,
            iteration config w (mkMonitor (Some started_at) false) =
              mkLoop (mkMonitor (Some started_at) false) out Running /\
            events out = []).
  { unfold due in Hd.
    destruct (sample_inside_episode w Hw Hw') as [[Hoff Hb]|[[msg Hu] _]].
    - rewrite Hb in Hd. cbn [andb] in Hd.
      assert (H := iteration_off_silent config w started_at false Hoff).
      rewrite Hd in H. rewrite (H eq_refl). eexists. split; reflexivity.
    - rewrite (iteration_unknown config w _ msg Hu).
      eexists. split; reflexivity. }
  destruct Hit as (out & Hit & He).
  cbv zeta. step_with Hit. rewrite events_app, He, IHe. auto.
Qed.

(** Where an episode stands after samples none of which is On. *)
Lemma episode_outcome (rest : list World) (started_at : Z) (sent : bool) :
  forallb uninterrupted rest = true ->
  forallb (fun w => negb (is_on w)) rest = true ->
  let r := monitor_loop config rest (mkMonitor (Some started_at) sent) in
  status r = Running /\
  monitor r =
    mkMonitor (Some started_at)
      (sent || existsb (fun w => due config started_at w && smtp_ok w) rest).
Proof.
  revert sent. induction rest as [|w rest IH]; intros sent Hun Hno.
  { cbn. rewrite orb_false_r. split; reflexivity. }
  cbn [forallb existsb] in *.
  apply andb_true_iff in Hun as [Hw Hun], Hno as [Hw' Hno].
  apply negb_true_iff in Hw'.
  assert (Hit : exists out,
            iteration config w (mkMonitor (Some started_at) sent) =
              mkLoop (mkMonitor (Some started_at)
                        (sent || (due config started_at w && smtp_ok w)))
                out Running).
  { unfold due.
    destruct (sample_inside_episode w Hw Hw') as [[Hoff ->]|[[msg Hu] ->]].
    - cbn [andb]. destruct sent.
      + rewrite (iteration_off_silent config w started_at true Hoff
                   (andb_false_r _)). eexists; reflexivity.
      + cbn [orb]. destruct (over_threshold config started_at w) eqn:Hth.
        * unfold uninterrupted in Hw. apply andb_true_iff in Hw as [_ Hmail].
          unfold smtp_ok.
          destruct (smtp w) as [[]|[m| |m]] eqn:Hsm; try discriminate Hmail.
          -- rewrite (iteration_off_alert_sent config w started_at Hoff Hth Hsm).
             eexists; reflexivity.
          -- destruct (iteration_off_alert_failed config w started_at m
                         Hoff Hth Hsm) as (Hm' & Hs' & _ & _).
             rewrite (loop_eta (iteration config w _)), Hm', Hs'.
             eexists; reflexivity.
        * assert (H := iteration_off_silent config w started_at false Hoff).
          rewrite Hth in H. rewrite (H eq_refl). eexists; reflexivity.
    - rewrite (iteration_unknown config w _ msg Hu). cbn [andb].
      rewrite orb_false_r. eexists; reflexivity. }
  destruct Hit as (out & Hit). cbv zeta. step_with Hit.
  destruct (IH (sent || (due config started_at w && smtp_ok w)) Hun Hno)
    as [Hs Hm].
  split; [exact Hs|]. rewrite Hm, orb_assoc. reflexivity.
Qed.

End Outages.

(** ** Outages from start to end *)

(** Only an On sample moves the start of an episode: over any run of
    iterations that meet no On sample, whatever else happens (failed queries,
    failed mails, an interrupt), [off_since] keeps its value, an alert flag
    that is up stays up, and no recovery is raised. *)
Theorem episode_start_is_kept
  (config : Config) (ws : list World) (self : KasaMonitor) (off : Z) :
  forallb (fun w => negb (is_on w)) ws = true ->
  off_since self = Some off ->
  let r := monitor_loop config ws self in
  off_since (monitor r) = Some off /\
  (alert_sent self = true -> alert_sent (monitor r) = true) /\
  recoveries (events (trace r)) = [].
Proof. apply no_on_run. Qed.

(** An episode begun at 0 through Off samples, a failed query and an
    interrupt. *)
Lemma episode_start_is_kept_witness :
  forallb (fun w => negb (is_on w))
    [off_at 60; unknown_at 120; off_at_smtp_down 300; interrupted_at 360]
    = true /\
  off_since (mkMonitor (Some 0) false) = Some 0 /\
  off_since (monitor (monitor_loop DEFAULT_CONFIG
    [off_at 60; unknown_at 120; off_at_smtp_down 300; interrupted_at 360]
    (mkMonitor (Some 0) false))) = Some 0.
Proof.
  split; [reflexivity|]. split; [reflexivity|].
  apply (episode_start_is_kept DEFAULT_CONFIG
           [off_at 60; unknown_at 120; off_at_smtp_down 300; interrupted_at 360]
           (mkMonitor (Some 0) false) 0 eq_refl eq_refl).
Defined.

(** No recovery without an alert mail handed over: in every run of the loop
    from the monitor [__init__] builds, the recoveries raised are at most as
    many as the alert mails handed to the server, and so are the alerts the
    loop took for sent (its records "Alert email sent"); and while the loop
    is running, the alerts taken for sent are exactly the recoveries raised,
    plus one if [alert_sent] is up (the alert of the episode still open). *)
Theorem recoveries_follow_delivered_alerts
  (config : Config) (ws : list World) :
  let r := monitor_loop config ws init in
  (length (recoveries (events (trace r))) <=
   length (alerts (delivered (trace r))))%nat /\
  (alerts_sent (trace r) <= length (alerts (delivered (trace r))))%nat /\
  (status r = Running ->
   alerts_sent (trace r) =
   (length (recoveries (events (trace r))) +
    Nat.b2n (alert_sent (monitor r)))%nat).
Proof.
  intros r. destruct (monitor_loop_balance config ws init) as (Hle & Hsd & Heq).
  fold r in Hle, Hsd, Heq. cbn [init alert_sent Nat.b2n] in Hle, Heq.
  split; [lia|]. split; [exact Hsd|]. intros H. specialize (Heq H). lia.
Qed.

(** An outage that no sample finds over the threshold leaves no trace: from
    the monitor [__init__] builds, an Off sample, then samples none of which
    is On and none of which is an Off sample at or over the threshold, then
    an On sample, raise no notification at all and end outside any episode.
    The time of the On sample plays no part: an outage is measured at Off
    samples only. *)
Theorem short_outage_is_silent
  (config : Config) (first closing : World) (rest : list World) :
  Off first -> On closing ->
  forallb (fun w => negb (is_on w)) rest = true ->
  forallb uninterrupted rest = true ->
  existsb (due config (datetime_now first)) rest = false ->
  let r := monitor_loop config (first :: rest ++ [closing]) init in
  events (trace r) = [] /\ monitor r = init /\ status r = Running.
Proof.
  intros Hfirst Hclosing Hno Hun Hdue r. subst r.
  pose proof (iteration_off_idle config first init Hfirst eq_refl) as Hit.
  cbn [init alert_sent] in Hit. step_with Hit.
  destruct (episode_quiet config rest (datetime_now first) Hun Hno Hdue)
    as (Hs & Hm & He).
  rewrite (monitor_loop_app config rest [closing] _ Hs). cbv zeta.
  rewrite Hm. cbn [monitor_loop].
  rewrite (iteration_on_quiet config closing (datetime_now first) Hclosing).
  cbn [monitor trace status]. rewrite !events_app, He. repeat split.
Qed.

(** Off at 0 and 120 s, On at 400 s, threshold 300 s: 400 s of outage, no
    mail. *)
Lemma short_outage_is_silent_witness :
  Off (off_at 0) /\ On (on_at 400) /\
  forallb (fun w => negb (is_on w)) [off_at 120] = true /\
  forallb uninterrupted [off_at 120] = true /\
  existsb (due DEFAULT_CONFIG (datetime_now (off_at 0))) [off_at 120] = false /\
  events (trace (monitor_loop DEFAULT_CONFIG
                   (off_at 0 :: [off_at 120] ++ [on_at 400]) init)) = [].
Proof.
  repeat (split; [reflexivity|]).
  apply (short_outage_is_silent DEFAULT_CONFIG (off_at 0) (on_at 400)
           [off_at 120] eq_refl eq_refl eq_refl eq_refl eq_refl).
Defined.

(** The recovery reports the whole outage, when there is one to report: from
    the monitor [__init__] builds, an Off sample, then samples none of which
    is On, then an On sample.  If on some Off sample at or over the threshold
    the alert function returned [True], the run raises exactly one recovery,
    its downtime is the minutes between the first Off sample and the On
    sample (failed queries and failed alert mails in between do not shorten
    it); if on none it did, no recovery is raised, also when an alert mail
    was handed to the server and only [quit()] failed.  Either way the
    monitor ends as [__init__] built it, whether or not the recovery mail
    goes out. *)
Theorem recovery_reports_whole_outage
  (config : Config) (first closing : World) (rest : list World) :
  Off first -> On closing -> answers (smtp closing) = true ->
  forallb (fun w => negb (is_on w)) rest = true ->
  forallb uninterrupted rest = true ->
  let r := monitor_loop config (first :: rest ++ [closing]) init in
  recoveries (events (trace r)) =
    (if existsb (fun w => due config (datetime_now first) w && smtp_ok w) rest
     then [RecoveryTriggered
             (total_seconds (datetime_now closing - datetime_now first) / 60)]
     else []) /\
  monitor r = init /\ status r = Running.
Proof.
  intros Hfirst Hclosing Hmail Hno Hun r. subst r.
  pose proof (iteration_off_idle config first init Hfirst eq_refl) as Hit.
  cbn [init alert_sent] in Hit. step_with Hit.
  destruct (episode_outcome config rest (datetime_now first) false Hun Hno)
    as (Hs & Hm).
  cbn [orb] in Hm.
  destruct (no_on_run config rest (mkMonitor (Some (datetime_now first)) false)
              (datetime_now first) Hno eq_refl) as (_ & _ & Hrec).
  rewrite (monitor_loop_app config rest [closing] _ Hs). cbv zeta.
  rewrite Hm. cbn [monitor_loop].
  destruct (existsb _ rest).
  - destruct (iteration_on_recovery config closing (datetime_now first)
                Hclosing Hmail) as (Hm' & Hs' & He').
    destruct (iteration config closing
                (mkMonitor (Some (datetime_now first)) true))
      as [self' out st].
    cbn [monitor trace status] in *. subst self' st.
    cbn [monitor trace status].
    rewrite !events_app, !filter_app_recoveries, Hrec, He', app_nil_r.
    repeat split.
  - rewrite (iteration_on_quiet config closing (datetime_now first) Hclosing).
    cbn [monitor trace status].
    rewrite !events_app, !filter_app_recoveries, Hrec. repeat split.
Qed.

(** Off from 0, a failed mail at 300 s, the alert out at 360 s, a failed
    query, On at 500 s with the mail server down: one recovery, for 500 s.
    And Off from 0, an alert mail handed over at 300 s with [quit()] failing,
    On at 360 s: no recovery. *)
Lemma recovery_reports_whole_outage_witness :
  Off (off_at 0) /\ On (on_at_smtp_down 500) /\
  answers (smtp (on_at_smtp_down 500)) = true /\
  recoveries (events (trace (monitor_loop DEFAULT_CONFIG
    (off_at 0 :: [off_at_smtp_down 300; off_at 360; unknown_at 420]
       ++ [on_at_smtp_down 500]) init))) =
    [RecoveryTriggered
       (total_seconds (datetime_now (on_at_smtp_down 500)
                       - datetime_now (off_at 0)) / 60)] /\
  delivered (trace (monitor_loop DEFAULT_CONFIG
    (off_at 0 :: [off_at_quit_fails 300] ++ [on_at 360]) init)) =
    [AlertTriggered (300000000 # 60000000)] /\
  recoveries (events (trace (monitor_loop DEFAULT_CONFIG
    (off_at 0 :: [off_at_quit_fails 300] ++ [on_at 360]) init))) = [].
Proof.
  split; [reflexivity|]. split; [reflexivity|]. split; [reflexivity|].
  split; [|split; [reflexivity|]].
  - apply (recovery_reports_whole_outage DEFAULT_CONFIG (off_at 0)
             (on_at_smtp_down 500)
             [off_at_smtp_down 300; off_at 360; unknown_at 420]
             eq_refl eq_refl eq_refl eq_refl eq_refl).
  - apply (recovery_reports_whole_outage DEFAULT_CONFIG (off_at 0)
             (on_at 360) [off_at_quit_fails 300]
             eq_refl eq_refl eq_refl eq_refl eq_refl).
Defined.

(** Every alert is due: whatever the state and whatever the iteration meets,
    an alert it raises carries a number of minutes that, times 60, is the
    seconds between [off_since] and the current time, and that is at least
    the threshold. *)
Theorem alert_payload_is_over_threshold
  (config : Config) (w : World) (self : KasaMonitor) (m : Q) :
  In (AlertTriggered m) (events (trace (iteration config w self))) ->
  (alert_threshold config <= m * 60)%Q /\
  exists off, off_since self = Some off /\
    (m * 60 == inject_Z (datetime_now w - off) / 1000000)%Q.
Proof.
  all_cases self w; run_iteration; split_threshold;
    intros H; try contradiction;
    destruct H as [H|[]]; try discriminate; injection H as <-;
    match goal with
    | E : Qle_bool _ _ = true |- _ => apply Qle_bool_iff in E
    end;
    (split;
     [ eapply Qle_trans; [eassumption|]; unfold total_seconds;
       apply Qle_lteq; right; field
     | eexists; split; [reflexivity|]; unfold total_seconds; field ]).
Qed.

(** The alert of the sample at 300 s in an episode begun at 0. *)
Lemma alert_payload_is_over_threshold_witness :
  In (AlertTriggered (300000000 # 60000000))
     (events (trace (iteration DEFAULT_CONFIG (off_at 300)
                       (mkMonitor (Some 0) false)))) /\
  (alert_threshold DEFAULT_CONFIG <= (300000000 # 60000000) * 60)%Q.
Proof.
  assert (H : In (AlertTriggered (300000000 # 60000000))
                (events (trace (iteration DEFAULT_CONFIG (off_at 300)
                                  (mkMonitor (Some 0) false))))).
  { left. reflexivity. }
  split; [exact H|].
  apply (alert_payload_is_over_threshold DEFAULT_CONFIG (off_at 300)
           (mkMonitor (Some 0) false) _ H).
Defined.

(** A threshold of zero (or less) does not alert at once: the Off sample
    that opens the episode raises nothing (it only records the time), and the
    next Off sample, if the clock has not gone back, raises the alert, so the
    alert comes one poll after the plug was first seen off. *)
Theorem zero_threshold_alerts_on_second_sample
  (config : Config) (first second : World) :
  (alert_threshold config <= 0)%Q ->
  Off first -> Off second ->
  datetime_now first <= datetime_now second ->
  let r1 := iteration config first init in
  let r2 := iteration config second (monitor r1) in
  events (trace r1) = [] /\
  events (trace r2) =
    [AlertTriggered
       (total_seconds (datetime_now second - datetime_now first) / 60)].
Proof.
  intros Hthr Hfirst Hsecond Hclock r1 r2. subst r1 r2.
  rewrite (iteration_off_idle config first init Hfirst eq_refl).
  cbn [monitor trace events init alert_sent]. split; [reflexivity|].
  assert (Hth : over_threshold config (datetime_now first) second = true).
  { unfold over_threshold. apply Qle_bool_iff.
    eapply Qle_trans; [exact Hthr|]. apply total_seconds_nonneg. lia. }
  destruct second as [q now sm qu]. unfold Off in Hsecond. cbn in Hsecond.
  subst q. unfold over_threshold in Hth. cbn [datetime_now] in Hth |- *.
  destruct sm as [[]|[m| |m]], qu as [[]|[m'| |m']];
    run_iteration; rewrite Hth; reflexivity.
Qed.

(** Threshold 0, Off at 0 and at 60 s. *)
Lemma zero_threshold_alerts_on_second_sample_witness :
  (alert_threshold (mkConfig 60 0) <= 0)%Q /\
  Off (off_at 0) /\ Off (off_at 60) /\
  datetime_now (off_at 0) <= datetime_now (off_at 60) /\
  events (trace (iteration (mkConfig 60 0) (off_at 0) init)) = [].
Proof.
  assert (H1 : (alert_threshold (mkConfig 60 0) <= 0)%Q) by (cbv; discriminate).
  assert (H2 : datetime_now (off_at 0) <= datetime_now (off_at 60))
    by (cbv; discriminate).
  split; [exact H1|]. split; [reflexivity|]. split; [reflexivity|].
  split; [exact H2|].
  apply (zero_threshold_alerts_on_second_sample (mkConfig 60 0) (off_at 0)
           (off_at 60) H1 eq_refl eq_refl H2).
Defined.

(** ** Loading the configuration *)

Lemma write_file_same (fs : FileSystem) (path text : string) :
  write_file fs path text path = File text.
Proof. unfold write_file. rewrite String.eqb_refl. reflexivity. Qed.

Lemma write_file_other (fs : FileSystem) (path text p : string) :
  p <> path -> write_file fs path text p = fs p.
Proof.
  intros H. unfold write_file.
  destruct (String.eqb_spec p path); [contradiction|reflexivity].
Qed.

(** [load_config] never overwrites: whatever is at the path of the
    configuration file, unless the path is free and the file gets created,
    stays as it is, and no other path is touched in any case.  When the file
    exists its text is what [json.load] is given, so a file that does not
    parse makes the method raise; when it exists and cannot be read, or does
    not exist and cannot be created, the method raises what [open] raises.
    In none of these cases are the defaults used or anything printed. *)
Theorem load_config_never_overwrites
  (J : Type) (json_load : string -> result J) (json_dump : J -> string)
  (default_config : J) (config_file : string) (fs : FileSystem) (p : string) :
  p <> config_file \/ fs config_file <> Absent ->
  let r := load_config J json_load json_dump default_config config_file fs in
  files J r p = fs p /\
  (forall text, fs config_file = File text ->
     loaded J r = json_load text /\ printed J r = []) /\
  (forall e, fs config_file = Unreadable e \/ fs config_file = Blocked e ->
     loaded J r = Raise e /\ printed J r = []).
Proof.
  intros H r. subst r. unfold load_config.
  destruct (fs config_file) as [text|e| |e] eqn:Hfs; cbn.
  - split; [reflexivity|]. split.
    + intros text' [= <-]. split; reflexivity.
    + intros e [H'|H']; discriminate H'.
  - split; [reflexivity|]. split.
    + intros text' H'. discriminate H'.
    + intros e' [[= <-]|H']; [split; reflexivity|discriminate H'].
  - destruct H as [H|H]; [|contradiction].
    split; [apply write_file_other, H|]. split.
    + intros text' H'. discriminate H'.
    + intros e [H'|H']; discriminate H'.
  - split; [reflexivity|]. split.
    + intros text' H'. discriminate H'.
    + intros e' [H'|[= <-]]; [discriminate H'|split; reflexivity].
Qed.

(** A configuration file that is not valid JSON: it is kept, and loading
    raises. *)
Lemma load_config_never_overwrites_witness :
  let fs : FileSystem :=
    fun p => if String.eqb p CONFIG_FILE then File "{ broken" else Absent in
  let json_load : string -> result Config :=
    fun text => if String.eqb text "default"
                then Return DEFAULT_CONFIG
                else Raise (Exception "JSONDecodeError") in
  let r := load_config Config json_load (fun _ => "default") DEFAULT_CONFIG
             CONFIG_FILE fs in
  (CONFIG_FILE <> CONFIG_FILE \/ fs CONFIG_FILE <> Absent) /\
  files Config r CONFIG_FILE = File "{ broken" /\
  loaded Config r = Raise (Exception "JSONDecodeError").
Proof.
  cbv zeta.
  assert (H : CONFIG_FILE <> CONFIG_FILE \/
              (fun p => if String.eqb p CONFIG_FILE
                        then File "{ broken" else Absent) CONFIG_FILE
              <> Absent).
  { right. discriminate. }
  split; [exact H|].
  pose proof (load_config_never_overwrites Config
                (fun text => if String.eqb text "default"
                             then Return DEFAULT_CONFIG
                             else Raise (Exception "JSONDecodeError"))
                (fun _ => "default") DEFAULT_CONFIG CONFIG_FILE
                (fun p => if String.eqb p CONFIG_FILE
                          then File "{ broken" else Absent)
                CONFIG_FILE H) as (Hf & Hl & _).
  split; [exact Hf|]. exact (proj1 (Hl "{ broken" eq_refl)).
Defined.

(** The first start writes the defaults, later starts read them back: when
    the configuration file is missing and its path can be created,
    [load_config] returns the default dictionary, prints its two lines and
    creates the file with the dump of the defaults, touching no other path; a
    second call finds the file, prints nothing, changes nothing and returns
    what [json.load] makes of the dump, which is the default dictionary again
    when [json.load] undoes [json.dump] on it. *)
Theorem load_config_creates_then_reads
  (J : Type) (json_load : string -> result J) (json_dump : J -> string)
  (default_config : J) (config_file : string) (fs : FileSystem) :
  fs config_file = Absent ->
  json_load (json_dump default_config) = Return default_config ->
  let r1 := load_config J json_load json_dump default_config config_file fs in
  let r2 := load_config J json_load json_dump default_config config_file
              (files J r1) in
  loaded J r1 = Return default_config /\
  length (printed J r1) = 2%nat /\
  files J r1 config_file = File (json_dump default_config) /\
  (forall p, p <> config_file -> files J r1 p = fs p) /\
  loaded J r2 = Return default_config /\
  printed J r2 = [] /\
  (forall p, files J r2 p = files J r1 p).
Proof.
  intros Hfs Hjson r1 r2.
  assert (H1 : r1 = mkLoaded J
                 (write_file fs config_file (json_dump default_config))
                 [("Created default config file: " ++ config_file)%string;
                  "Please edit the configuration file with your settings."]
                 (Return default_config)).
  { subst r1. unfold load_config. rewrite Hfs. reflexivity. }
  assert (H2 : r2 = mkLoaded J
                 (write_file fs config_file (json_dump default_config)) []
                 (Return default_config)).
  { subst r2. rewrite H1. cbn [files]. unfold load_config.
    rewrite write_file_same, Hjson. reflexivity. }
  rewrite H1, H2. cbn [files loaded printed length].
  repeat split.
  - apply write_file_same.
  - intros p Hp. apply write_file_other, Hp.
Qed.

(** An empty directory, a codec that knows the defaults. *)
Lemma load_config_creates_then_reads_witness :
  let fs : FileSystem := fun _ => Absent in
  let json_load : string -> result Config :=
    fun text => if String.eqb text "default"
                then Return DEFAULT_CONFIG
                else Raise (Exception "JSONDecodeError") in
  let json_dump : Config -> string := fun _ => "default" in
  fs CONFIG_FILE = Absent /\
  json_load (json_dump DEFAULT_CONFIG) = Return DEFAULT_CONFIG /\
  loaded Config
    (load_config Config json_load json_dump DEFAULT_CONFIG CONFIG_FILE
       (files Config
          (load_config Config json_load json_dump DEFAULT_CONFIG CONFIG_FILE
             fs))) = Return DEFAULT_CONFIG.
Proof.
  cbv zeta. split; [reflexivity|]. split; [reflexivity|].
  apply (load_config_creates_then_reads Config
           (fun text => if String.eqb text "default"
                        then Return DEFAULT_CONFIG
                        else Raise (Exception "JSONDecodeError"))
           (fun _ => "default") DEFAULT_CONFIG CONFIG_FILE (fun _ => Absent)
           eq_refl eq_refl).
Defined.
